(** * Document-intelligence front end: extraction and analysis orchestration

    A shallow embedding of [app/static/js/main.js].  Each JavaScript
    function is a definition of the same name.  Asynchronous functions are
    run to completion in one piece (one operation at a time, as on the
    single-threaded event loop); module-level variables and the parts of the
    page the script writes to are fields of an explicit [State]; the PDF
    reader, the backend and the dialogs are an explicit [World]. *)

From Stdlib Require Import String Ascii DecimalString.
From Stdlib Require Import Bool Arith ZArith NArith Lia List.
Import ListNotations.

Set Implicit Arguments.

(* ================================================================== *)
(** ** JavaScript strings *)

(** A string is a sequence of UTF-16 code units; [length] counts code
    units, as [String.prototype.length] does. *)
Definition char16 := N.
Definition jsstring := list char16.

Definition lit (s : string) : jsstring :=
  map N_of_ascii (list_ascii_of_string s).
Arguments lit s%_string.

(** [!s] is true exactly for the empty string. *)
Definition truthy (s : jsstring) : bool :=
  match s with [] => false | _ :: _ => true end.

(** [a || b] on strings. *)
Definition or_else (a b : jsstring) : jsstring :=
  if truthy a then a else b.

(** [s.substring(0, n)] for a natural [n]. *)
Definition substring0 (n : nat) (s : jsstring) : jsstring := firstn n s.

(** [xs.join(sep)] *)
Fixpoint join (sep : jsstring) (xs : list jsstring) : jsstring :=
  match xs with
  | [] => []
  | [x] => x
  | x :: rest => x ++ sep ++ join sep rest
  end.

(** White space and line terminators removed by [String.prototype.trim]. *)
Definition is_white_space (c : char16) : bool :=
  existsb (N.eqb c)
    [ 9; 10; 11; 12; 13; 32; 160; 5760;
      8192; 8193; 8194; 8195; 8196; 8197; 8198; 8199; 8200; 8201; 8202;
      8232; 8233; 8239; 8287; 12288; 65279 ]%N.

Fixpoint trimStart (s : jsstring) : jsstring :=
  match s with
  | [] => []
  | c :: rest => if is_white_space c then trimStart rest else s
  end.

Definition trimEnd (s : jsstring) : jsstring := rev (trimStart (rev s)).

Definition trim (s : jsstring) : jsstring := trimEnd (trimStart s).

(** Surrogate code units, and strings in which every surrogate is paired:
    [encodeURIComponent] raises a URIError on any other string. *)
Definition is_high_surrogate (c : char16) : bool := (55296 <=? c)%N && (c <=? 56319)%N.
Definition is_low_surrogate (c : char16) : bool := (56320 <=? c)%N && (c <=? 57343)%N.

Fixpoint well_formed (s : jsstring) : bool :=
  match s with
  | [] => true
  | c :: rest =>
      if is_high_surrogate c
      then match rest with
           | c' :: rest' => is_low_surrogate c' && well_formed rest'
           | [] => false
           end
      else if is_low_surrogate c then false
      else well_formed rest
  end.

(** Decimal rendering of an integer inside a template literal. *)
Definition Z_toString (z : Z) : jsstring :=
  lit (NilZero.string_of_int (Z.to_int z)).

(* ================================================================== *)
(** ** Markup of text *)

(** [escapeHtml] writes the text into a fresh [div] through [textContent]
    and reads [innerHTML] back: the serialisation of one text node, which
    replaces the four characters below by character references. *)
Definition escape_char (c : char16) : jsstring :=
  if (c =? 38)%N then lit "&amp;"
  else if (c =? 60)%N then lit "&lt;"
  else if (c =? 62)%N then lit "&gt;"
  else if (c =? 160)%N then lit "&nbsp;"
  else [c].

Definition escapeHtml (text : jsstring) : jsstring :=
  if negb (truthy text) then [] else flat_map escape_char text.

(** The text a reader sees for markup made of text and of the four
    references above (what the page shows once the markup is assigned to
    [innerHTML]). *)
Fixpoint html_text (m : jsstring) : jsstring :=
  match m with
  | [] => []
  | c :: r =>
      if negb (c =? 38)%N then c :: html_text r
      else
        match r with
        | 108 :: 116 :: 59 :: r' => 60 :: html_text r'
        | 103 :: 116 :: 59 :: r' => 62 :: html_text r'
        | 97 :: 109 :: 112 :: 59 :: r' => 38 :: html_text r'
        | 110 :: 98 :: 115 :: 112 :: 59 :: r' => 160 :: html_text r'
        | _ => c :: html_text r
        end%N
  end.

(* ================================================================== *)
(** ** Errors, completions, and the outside world *)

Record JSError := mkError { message : jsstring }.

(** How an awaited promise settles. *)
Inductive outcome (A : Type) : Type :=
| Resolved (a : A)
| Rejected (e : JSError).
Arguments Resolved {A} a.
Arguments Rejected {A} e.

(** A [fetch] response: its [ok] flag and what [response.json()] settles to. *)
Record Response (A : Type) := mkResponse {
  ok : bool;
  json : outcome A
}.

Definition DocId := jsstring.

(** *** PDF source (pdf.js) *)

Record TextItem := mkItem { str : jsstring }.

Record PDFPage := mkPage {
  getTextContent : outcome (list TextItem)   (* textContent.items *)
}.

Record PDFDocument := mkPDF {
  numPages : nat;
  getPage : nat -> outcome PDFPage
}.

(** *** Wire payloads; an optional key is [None] when it is absent or null *)

Record InsightBundle := mkBundle {
  key_insights : option (list jsstring);
  did_you_know : option (list jsstring);
  counterpoints : option (list jsstring);
  connections : option (list jsstring)
}.

Record InsightsResponse := mkInsights { insights : option InsightBundle }.

Record PodcastResponse := mkPodcast {
  script : option jsstring;
  text_content : option jsstring
}.

Record DocumentMetadata := mkDoc {
  id : DocId;
  title : jsstring;
  filename : option jsstring;
  page_count : nat;
  processed_at : jsstring
}.

Record DocumentsListing := mkListing { documents : list DocumentMetadata }.

Record SectionMeta (num : Type) := mkMeta { page : option num }.

(** A related section as sent by the backend.  [num] is the type of
    JavaScript numbers; the development is parametric in it. *)
Record RelatedSection (num : Type) := mkSection {
  text : option jsstring;
  meta : option (SectionMeta num);
  score : option num
}.

(** *** Requests sent with [fetch] *)

Inductive Request :=
| ReqInsights (docId : DocId) (section_text : jsstring)   (* POST /api/insights/:id *)
| ReqRelated (docId : DocId) (query : jsstring) (k : nat) (* GET /api/related?doc_id&text&k *)
| ReqPodcast (docId : DocId) (section_text : jsstring)    (* POST /api/podcast/:id *)
| ReqDelete (docId : DocId)                               (* DELETE /api/documents/:id *)
| ReqDocuments.                                           (* GET /api/documents *)

(** Everything the script calls but does not define. *)
Record World (num : Type) := mkWorld {
  getDocument : DocId -> outcome PDFDocument;          (* pdfjsLib.getDocument(url).promise *)
  api_insights : DocId -> jsstring -> outcome (Response InsightsResponse);
  api_related : DocId -> jsstring -> nat ->
                outcome (Response (option (list (RelatedSection num))));
  api_podcast : DocId -> jsstring -> outcome (Response PodcastResponse);
  api_delete : DocId -> outcome (Response unit);
  api_documents : outcome (Response DocumentsListing);
  confirm : jsstring -> bool;
  toFixed : num -> nat -> jsstring;                    (* Number.prototype.toFixed *)
  type_error : JSError;                                (* reading a property of undefined *)
  uri_error : JSError;                                 (* encodeURIComponent on a lone surrogate *)
  number_truthy : num -> bool;                         (* false for 0 and NaN *)
  number_toString : num -> jsstring                    (* a number inside a template literal *)
}.

(* ================================================================== *)
(** ** What the page shows *)

Inductive ElemId :=
| documentsSection | documentView | insightsContainer
| podcastContainer | relatedSections | loading.

Definition ElemId_eqb (a b : ElemId) : bool :=
  match a, b with
  | documentsSection, documentsSection | documentView, documentView
  | insightsContainer, insightsContainer | podcastContainer, podcastContainer
  | relatedSections, relatedSections | loading, loading => true
  | _, _ => false
  end.

Inductive Display := DisplayNone | DisplayBlock.

(** Content of [#insightsContent]; every list item holds markup. *)
Inductive InsightsView :=
| NoInsightsGenerated
| InsightSections (keyInsights didYouKnow counterpointsList connectionsList : list jsstring).

(** The modal built by [showQuickInsights]. *)
Record QuickInsightsModal := mkModal {
  modal_title : jsstring;
  modal_keyInsights : list jsstring;
  modal_quickFacts : list jsstring
}.

(** Content of [#relatedContent]: the fixed no-result paragraph, or the
    markup string assigned to [innerHTML] (the cards' strings joined). *)
Inductive RelatedView :=
| NoRelatedSections
| RelatedMarkup (markup : jsstring).

Inductive Event :=
| EvGetDocument (docId : DocId)
| EvGetPage (pageNum : nat)
| EvFetch (r : Request)
| EvAlert (msg : jsstring)
| EvConfirm (msg : jsstring)
| EvConsoleError (label : jsstring) (e : JSError).

(** Module-level variables, the written parts of the page, and the
    chronological record of calls that leave the script. *)
Record State := mkState {
  currentDocumentId : option DocId;
  currentPodcastText : option jsstring;
  documents_metadata : list (DocId * DocumentMetadata);
  style_display : ElemId -> option Display;
  pdfViewer_src : option DocId;
  currentDocTitle : option jsstring;
  documentsGrid : list DocumentMetadata;
  insightsContent : option InsightsView;
  relatedContent : option RelatedView;
  podcastContent : option jsstring;
  modals : list QuickInsightsModal;
  trace : list Event
}.

Definition initial_state : State :=
  mkState None None [] (fun _ => None) None None [] None None None [] [].

Definition set_currentDocumentId (v : option DocId) (s : State) : State :=
  mkState v (currentPodcastText s) (documents_metadata s) (style_display s)
    (pdfViewer_src s) (currentDocTitle s) (documentsGrid s) (insightsContent s)
    (relatedContent s) (podcastContent s) (modals s) (trace s).

Definition set_currentPodcastText (v : option jsstring) (s : State) : State :=
  mkState (currentDocumentId s) v (documents_metadata s) (style_display s)
    (pdfViewer_src s) (currentDocTitle s) (documentsGrid s) (insightsContent s)
    (relatedContent s) (podcastContent s) (modals s) (trace s).

Definition set_documents_metadata (v : list (DocId * DocumentMetadata)) (s : State) : State :=
  mkState (currentDocumentId s) (currentPodcastText s) v (style_display s)
    (pdfViewer_src s) (currentDocTitle s) (documentsGrid s) (insightsContent s)
    (relatedContent s) (podcastContent s) (modals s) (trace s).

Definition set_display (e : ElemId) (d : Display) (s : State) : State :=
  mkState (currentDocumentId s) (currentPodcastText s) (documents_metadata s)
    (fun e' => if ElemId_eqb e' e then Some d else style_display s e')
    (pdfViewer_src s) (currentDocTitle s) (documentsGrid s) (insightsContent s)
    (relatedContent s) (podcastContent s) (modals s) (trace s).

Definition set_pdfViewer_src (v : DocId) (s : State) : State :=
  mkState (currentDocumentId s) (currentPodcastText s) (documents_metadata s)
    (style_display s) (Some v) (currentDocTitle s) (documentsGrid s)
    (insightsContent s) (relatedContent s) (podcastContent s) (modals s) (trace s).

Definition set_currentDocTitle (v : jsstring) (s : State) : State :=
  mkState (currentDocumentId s) (currentPodcastText s) (documents_metadata s)
    (style_display s) (pdfViewer_src s) (Some v) (documentsGrid s)
    (insightsContent s) (relatedContent s) (podcastContent s) (modals s) (trace s).

Definition set_documentsGrid (v : list DocumentMetadata) (s : State) : State :=
  mkState (currentDocumentId s) (currentPodcastText s) (documents_metadata s)
    (style_display s) (pdfViewer_src s) (currentDocTitle s) v
    (insightsContent s) (relatedContent s) (podcastContent s) (modals s) (trace s).

Definition set_insightsContent (v : InsightsView) (s : State) : State :=
  mkState (currentDocumentId s) (currentPodcastText s) (documents_metadata s)
    (style_display s) (pdfViewer_src s) (currentDocTitle s) (documentsGrid s)
    (Some v) (relatedContent s) (podcastContent s) (modals s) (trace s).

Definition set_relatedContent (v : RelatedView) (s : State) : State :=
  mkState (currentDocumentId s) (currentPodcastText s) (documents_metadata s)
    (style_display s) (pdfViewer_src s) (currentDocTitle s) (documentsGrid s)
    (insightsContent s) (Some v) (podcastContent s) (modals s) (trace s).

Definition set_podcastContent (v : jsstring) (s : State) : State :=
  mkState (currentDocumentId s) (currentPodcastText s) (documents_metadata s)
    (style_display s) (pdfViewer_src s) (currentDocTitle s) (documentsGrid s)
    (insightsContent s) (relatedContent s) (Some v) (modals s) (trace s).

Definition add_modal (m : QuickInsightsModal) (s : State) : State :=
  mkState (currentDocumentId s) (currentPodcastText s) (documents_metadata s)
    (style_display s) (pdfViewer_src s) (currentDocTitle s) (documentsGrid s)
    (insightsContent s) (relatedContent s) (podcastContent s) (modals s ++ [m]) (trace s).

Definition add_events (evs : list Event) (s : State) : State :=
  mkState (currentDocumentId s) (currentPodcastText s) (documents_metadata s)
    (style_display s) (pdfViewer_src s) (currentDocTitle s) (documentsGrid s)
    (insightsContent s) (relatedContent s) (podcastContent s) (modals s) (trace s ++ evs).

(* ================================================================== *)
(** ** Computations: state passing with exceptions *)

Inductive completion (A : Type) : Type :=
| Normal (a : A)
| Throw (e : JSError).
Arguments Normal {A} a.
Arguments Throw {A} e.

Definition M (A : Type) : Type := State -> completion A * State.

Definition ret {A} (a : A) : M A := fun s => (Normal a, s).

Definition throw {A} (e : JSError) : M A := fun s => (Throw e, s).

Definition bind {A B} (m : M A) (f : A -> M B) : M B :=
  fun s =>
    match m s with
    | (Normal a, s') => f a s'
    | (Throw e, s') => (Throw e, s')
    end.

Notation "x <- m ;; k" := (bind m (fun x => k))
  (at level 61, m at next level, right associativity).
Notation "m ;; k" := (bind m (fun _ => k))
  (at level 61, right associativity).

(** [try { body } catch (error) { handler }] *)
Definition try_catch {A} (body : M A) (handler : JSError -> M A) : M A :=
  fun s =>
    match body s with
    | (Normal a, s') => (Normal a, s')
    | (Throw e, s') => handler e s'
    end.

(** [try { body } finally { cleanup }] *)
Definition try_finally {A} (body : M A) (cleanup : M unit) : M A :=
  fun s =>
    match body s with
    | (c, s') =>
        match cleanup s' with
        | (Normal _, s'') => (c, s'')
        | (Throw e, s'') => (Throw e, s'')
        end
    end.

Definition modify (f : State -> State) : M unit := fun s => (Normal tt, f s).

Definition get {A} (f : State -> A) : M A := fun s => (Normal (f s), s).

Definition emit (ev : Event) : M unit := modify (add_events [ev]).

(** [await p] for a promise settling as [o]. *)
Definition await {A} (o : outcome A) : M A :=
  match o with
  | Resolved a => ret a
  | Rejected e => throw e
  end.

Definition alert (msg : jsstring) : M unit := emit (EvAlert msg).

Definition console_error (label : jsstring) (e : JSError) : M unit :=
  emit (EvConsoleError label e).

(** [await fetch(...)], by endpoint. *)
Definition fetch_insights {num} (W : World num) (docId : DocId) (section_text : jsstring)
  : M (Response InsightsResponse) :=
  emit (EvFetch (ReqInsights docId section_text)) ;;
  await (api_insights W docId section_text).

(** The URL is built with [encodeURIComponent(text)] before [fetch] is
    called; the request is recorded with the text before encoding. *)
Definition fetch_related {num} (W : World num) (docId : DocId) (query : jsstring) (k : nat)
  : M (Response (option (list (RelatedSection num)))) :=
  if well_formed query
  then emit (EvFetch (ReqRelated docId query k)) ;;
       await (api_related W docId query k)
  else throw (uri_error W).

Definition fetch_podcast {num} (W : World num) (docId : DocId) (section_text : jsstring)
  : M (Response PodcastResponse) :=
  emit (EvFetch (ReqPodcast docId section_text)) ;;
  await (api_podcast W docId section_text).

Definition fetch_delete {num} (W : World num) (docId : DocId) : M (Response unit) :=
  emit (EvFetch (ReqDelete docId)) ;;
  await (api_delete W docId).

Definition fetch_documents {num} (W : World num) : M (Response DocumentsListing) :=
  emit (EvFetch ReqDocuments) ;;
  await (api_documents W).

(* ================================================================== *)
(** ** The script *)

Fixpoint jsstring_eqb (a b : jsstring) : bool :=
  match a, b with
  | [], [] => true
  | x :: a', y :: b' => (x =? y)%N && jsstring_eqb a' b'
  | _, _ => false
  end.

(** The registry is a plain object.  The list holds what the assignments
    [acc[doc.id] = doc] stored: an own property per key, except that the
    key [__proto__] goes through the setter of [Object.prototype] and
    installs the document as the prototype of the registry; the entry kept
    under that key is this prototype. *)
Fixpoint own_entry (docId : DocId) (m : list (DocId * DocumentMetadata))
  : option DocumentMetadata :=
  match m with
  | [] => None
  | (k, v) :: rest => if jsstring_eqb k docId then Some v else own_entry docId rest
  end.

Definition proto_key : DocId := lit "__proto__".

(** The data properties of [Object.prototype]. *)
Definition object_prototype_names : list jsstring :=
  [ lit "constructor"; lit "hasOwnProperty"; lit "isPrototypeOf";
    lit "propertyIsEnumerable"; lit "toLocaleString"; lit "toString"; lit "valueOf";
    lit "__defineGetter__"; lit "__defineSetter__";
    lit "__lookupGetter__"; lit "__lookupSetter__" ].

(** What indexing the registry can give. *)
Inductive Member :=
| MemberDocument (doc : DocumentMetadata)  (* a listed document *)
| MemberString (s : jsstring)
| MemberNumber (n : nat)
| MemberBuiltin                            (* a member of Object.prototype, or that object *)
| MemberNullish.                           (* undefined or null *)

(** A property of a listed document, by name. *)
Definition document_field (doc : DocumentMetadata) (k : jsstring) : option Member :=
  if jsstring_eqb k (lit "id") then Some (MemberString (id doc))
  else if jsstring_eqb k (lit "title") then Some (MemberString (title doc))
  else if jsstring_eqb k (lit "filename")
       then Some (match filename doc with
                  | Some f => MemberString f
                  | None => MemberNullish
                  end)
  else if jsstring_eqb k (lit "page_count") then Some (MemberNumber (page_count doc))
  else if jsstring_eqb k (lit "processed_at") then Some (MemberString (processed_at doc))
  else None.

Definition object_prototype_member (k : jsstring) : Member :=
  if existsb (jsstring_eqb k) object_prototype_names then MemberBuiltin else MemberNullish.

(** [documents_metadata[docId]]: an own property, else along the prototype
    chain. *)
Definition registry_get (docId : DocId) (m : list (DocId * DocumentMetadata)) : Member :=
  match own_entry docId m with
  | Some doc => MemberDocument doc
  | None =>
      if jsstring_eqb docId proto_key then MemberBuiltin
      else
        match own_entry proto_key m with
        | Some prototype =>
            match document_field prototype docId with
            | Some v => v
            | None => object_prototype_member docId
            end
        | None => object_prototype_member docId
        end
  end.

Definition member_truthy (v : Member) : bool :=
  match v with
  | MemberDocument _ | MemberBuiltin => true
  | MemberString s => truthy s
  | MemberNumber n => negb (n =? 0)
  | MemberNullish => false
  end.

(** [v.title] as a text: only a document has one; on a string, a number or
    a built-in it is undefined, which shows as no text. *)
Definition title_text (v : Member) : jsstring :=
  match v with
  | MemberDocument doc => title doc
  | _ => []
  end.

(** [acc[doc.id] = doc] *)
Fixpoint metadata_insert (docId : DocId) (doc : DocumentMetadata)
  (m : list (DocId * DocumentMetadata)) : list (DocId * DocumentMetadata) :=
  match m with
  | [] => [(docId, doc)]
  | (k, v) :: rest =>
      if jsstring_eqb k docId then (k, doc) :: rest
      else (k, v) :: metadata_insert docId doc rest
  end.

Definition showLoading (show : bool) : M unit :=
  modify (set_display loading (if show then DisplayBlock else DisplayNone)).

Definition displayDocuments (docs : list DocumentMetadata) : State -> State :=
  set_documentsGrid docs.

Definition loadDocuments {num} (W : World num) : M unit :=
  try_catch
    (response <- fetch_documents W ;;
     data <- await (json response) ;;
     modify (set_documents_metadata
               (fold_left (fun acc doc => metadata_insert (id doc) doc acc)
                          (documents data) [])) ;;
     modify (displayDocuments (documents data)))
    (fun error => console_error (lit "Failed to load documents:") error).

Definition viewDocument (docId : DocId) (s : State) : State :=
  let s := set_currentDocumentId (Some docId) s in
  let s := set_display documentsSection DisplayNone s in
  let s := set_display documentView DisplayBlock s in
  let s := set_pdfViewer_src docId s in
  let doc := registry_get docId (documents_metadata s) in
  let s := if member_truthy doc then set_currentDocTitle (title_text doc) s else s in
  let s := set_display insightsContainer DisplayNone s in
  let s := set_display podcastContainer DisplayNone s in
  set_display relatedSections DisplayNone s.

Definition goBack (s : State) : State :=
  let s := set_display documentView DisplayNone s in
  let s := set_display documentsSection DisplayBlock s in
  let s := set_display insightsContainer DisplayNone s in
  let s := set_display podcastContainer DisplayNone s in
  let s := set_display relatedSections DisplayNone s in
  set_currentDocumentId None s.

(** *** Text extraction *)

Definition blank_line : jsstring := [10; 10]%N.   (* '\n\n' *)
Definition ellipsis : jsstring := lit "...".

Definition sample_fallback : jsstring :=
  lit "Document content analysis for quick insights.".
Definition full_fallback : jsstring :=
  lit "Document content analysis. This PDF contains valuable information for review.".

(** [textContent.items.map(item => item.str).join(' ')] *)
Definition pageTextOf (items : list TextItem) : jsstring :=
  join (lit " ") (map str items).

(** The [for] loop of [extractSampleTextFromPDF]: [pageNum] is the loop
    variable and [remaining] = [samplePages + 1 - pageNum] the number of
    iterations still allowed by the loop test. *)
Fixpoint sample_loop (pdf : PDFDocument) (remaining pageNum : nat)
  (sampleText : jsstring) : M jsstring :=
  match remaining with
  | 0 => ret sampleText
  | S remaining' =>
      emit (EvGetPage pageNum) ;;
      page <- await (getPage pdf pageNum) ;;
      items <- await (getTextContent page) ;;
      let sampleText := sampleText ++ pageTextOf items ++ blank_line in
      if 1000 <? length sampleText
      then ret (substring0 1000 sampleText ++ ellipsis)            (* break *)
      else sample_loop pdf remaining' (S pageNum) sampleText
  end.

(** The [try] block of [extractSampleTextFromPDF]. *)
Definition extractSampleTextFromPDF_try {num} (W : World num) (docId : DocId)
  : M jsstring :=
  emit (EvGetDocument docId) ;;
  pdf <- await (getDocument W docId) ;;
  let samplePages := Nat.min (numPages pdf) 3 in
  sampleText <- sample_loop pdf samplePages 1 [] ;;
  ret (trim sampleText).

Definition extractSampleTextFromPDF {num} (W : World num) (docId : DocId) : M jsstring :=
  try_catch
    (extractSampleTextFromPDF_try W docId)
    (fun error =>
       console_error (lit "PDF sample extraction failed:") error ;;
       ret sample_fallback).

(** The [for] loop of [extractTextFromPDF]. *)
Fixpoint full_loop (pdf : PDFDocument) (remaining pageNum : nat)
  (fullText : jsstring) : M jsstring :=
  match remaining with
  | 0 => ret fullText
  | S remaining' =>
      emit (EvGetPage pageNum) ;;
      page <- await (getPage pdf pageNum) ;;
      items <- await (getTextContent page) ;;
      full_loop pdf remaining' (S pageNum) (fullText ++ pageTextOf items ++ blank_line)
  end.

(** The [try] block of [extractTextFromPDF]. *)
Definition extractTextFromPDF_try {num} (W : World num) (docId : DocId)
  : M jsstring :=
  emit (EvGetDocument docId) ;;
  pdf <- await (getDocument W docId) ;;
  let maxPages := Nat.min (numPages pdf) 10 in
  fullText <- full_loop pdf maxPages 1 [] ;;
  ret (trim fullText).

Definition extractTextFromPDF {num} (W : World num) (docId : DocId) : M jsstring :=
  try_catch
    (extractTextFromPDF_try W docId)
    (fun error =>
       console_error (lit "PDF text extraction failed:") error ;;
       ret full_fallback).

(** *** Rendering of insights *)

(** [field || [placeholder]]; an array, even an empty one, is truthy. *)
Definition or_default (field : option (list jsstring)) (placeholder : jsstring)
  : list jsstring :=
  match field with
  | Some values => values
  | None => [placeholder]
  end.

Definition no_key_insights : jsstring := lit "No key insights available".
Definition no_facts : jsstring := lit "No additional facts available".
Definition no_counterpoints : jsstring := lit "No counterpoints available".
Definition no_connections : jsstring := lit "No connections available".

(** [insights.insights?.f] *)
Definition optional_field (ins : InsightsResponse)
  (f : InsightBundle -> option (list jsstring)) : option (list jsstring) :=
  match insights ins with
  | Some b => f b
  | None => None
  end.

Definition showQuickInsights (ins : InsightsResponse) (docTitle : jsstring)
  : State -> State :=
  let keyInsights := or_default (optional_field ins key_insights) no_key_insights in
  let quickFacts := or_default (optional_field ins did_you_know) no_facts in
  add_modal (mkModal (escapeHtml docTitle)
                     (map escapeHtml keyInsights)
                     (map escapeHtml quickFacts)).

Definition displayInsights (ins : InsightsResponse) (s : State) : State :=
  match insights ins with
  | None =>
      set_display insightsContainer DisplayBlock
        (set_insightsContent NoInsightsGenerated s)
  | Some b =>
      set_display insightsContainer DisplayBlock
        (set_insightsContent
           (InsightSections
              (map escapeHtml (or_default (key_insights b) no_key_insights))
              (map escapeHtml (or_default (did_you_know b) no_facts))
              (map escapeHtml (or_default (counterpoints b) no_counterpoints))
              (map escapeHtml (or_default (connections b) no_connections)))
           s)
  end.

(** *** Related sections *)

Definition not_available : jsstring := lit "N/A".
Definition zero_score : jsstring := lit "0.00".

(** [section.meta?.page || 'N/A'] inside the template literal *)
Definition page_label {num} (W : World num) (m : option (SectionMeta num)) : jsstring :=
  match m with
  | Some mt =>
      match page mt with
      | Some p => if number_truthy W p then number_toString W p else not_available
      | None => not_available
      end
  | None => not_available
  end.

(** [section.score?.toFixed(2) || '0.00'] *)
Definition score_label {num} (W : World num) (sc : option num) : jsstring :=
  match sc with
  | Some x => or_else (toFixed W x 2) zero_score
  | None => zero_score
  end.

Definition dq : jsstring := [34%N].          (* the double quote *)
Definition nl : jsstring := [10%N].          (* the line feed *)
Definition indent (n : nat) : jsstring := repeat 32%N n.

(** The paragraph of a card. *)
Definition preview_markup (t : jsstring) : jsstring :=
  lit "<p>" ++ escapeHtml (substring0 100 t) ++ lit "...</p>".

(** The start tag of a card: the text goes into the [onclick] attribute as
    it is. *)
Definition card_open (t : jsstring) : jsstring :=
  lit "<div class=" ++ dq ++ lit "related-card" ++ dq
  ++ lit " onclick=" ++ dq ++ lit "highlightSection('" ++ t ++ lit "')" ++ dq ++ lit ">".

(** The string the template literal in [showRelatedSections] gives for one
    section; [section.text.substring] raises when [text] is missing. *)
Definition render_card {num} (W : World num) (section : RelatedSection num)
  : completion jsstring :=
  match text section with
  | None => Throw (type_error W)
  | Some t =>
      Normal (nl ++ indent 16 ++ card_open t
              ++ nl ++ indent 20
              ++ lit "<strong>Page " ++ page_label W (meta section) ++ lit "</strong>"
              ++ nl ++ indent 20 ++ preview_markup t
              ++ nl ++ indent 20
              ++ lit "<small>Score: " ++ score_label W (score section) ++ lit "</small>"
              ++ nl ++ indent 16 ++ lit "</div>"
              ++ nl ++ indent 12)
  end.

(** [relatedSections.map(section => ...)] *)
Fixpoint render_cards {num} (W : World num) (l : list (RelatedSection num))
  : completion (list jsstring) :=
  match l with
  | [] => Normal []
  | section :: rest =>
      match render_card W section with
      | Throw e => Throw e
      | Normal c =>
          match render_cards W rest with
          | Throw e => Throw e
          | Normal cs => Normal (c :: cs)
          end
      end
  end.

Definition lift {A} (c : completion A) : M A := fun s => (c, s).

Definition showRelatedSections {num} (W : World num) (docId : DocId) (txt : jsstring)
  : M unit :=
  if negb (truthy txt) then ret tt
  else
    try_catch
      (response <- fetch_related W docId txt 5 ;;
       related <- await (json response) ;;
       match related with
       | Some ((_ :: _) as l) =>
           cards <- lift (render_cards W l) ;;
           modify (set_relatedContent (RelatedMarkup (concat cards)))   (* join('') *)
       | _ => modify (set_relatedContent NoRelatedSections)
       end ;;
       modify (set_display relatedSections DisplayBlock))
      (fun error => console_error (lit "Failed to load related sections:") error).

(** *** The three operations *)

Definition quick_threshold : nat := 30.
Definition full_threshold : nat := 50.
Definition podcast_threshold : nat := 100.

(** [!t || t.trim().length < n] *)
Definition insufficient (n : nat) (t : jsstring) : bool :=
  negb (truthy t) || (length (trim t) <? n).

Definition quick_alert : jsstring :=
  lit "Could not extract enough text for quick analysis. Please view the document for full analysis.".
Definition full_alert : jsstring :=
  lit "Could not extract enough text from the PDF for analysis. Please try another document.".
Definition podcast_alert : jsstring :=
  lit "Not enough text extracted for podcast generation. Please try another document.".

Definition quickAnalyzeDocument {num} (W : World num) (docId : DocId) : M unit :=
  showLoading true ;;
  try_finally
    (try_catch
       (sampleText <- extractSampleTextFromPDF W docId ;;
        if insufficient quick_threshold sampleText
        then alert quick_alert ;; showLoading false                  (* return *)
        else
          response <- fetch_insights W docId sampleText ;;
          ins <- await (json response) ;;
          doc <- get (fun s => registry_get docId (documents_metadata s)) ;;
          match doc with
          | MemberNullish => throw (type_error W)
          | _ => modify (showQuickInsights ins (title_text doc))
          end)
       (fun error =>
          console_error (lit "Quick analysis failed:") error ;;
          alert (lit "Quick analysis failed: " ++ message error)))
    (showLoading false).

Definition analyzeDocument {num} (W : World num) (docId : DocId)
  (specificText : option jsstring) : M unit :=
  showLoading true ;;
  try_finally
    (try_catch
       (textToAnalyze <-
          match specificText with
          | Some t => if truthy t then ret t else extractTextFromPDF W docId
          | None => extractTextFromPDF W docId
          end ;;
        if insufficient full_threshold textToAnalyze
        then alert full_alert ;; showLoading false                   (* return *)
        else
          response <- fetch_insights W docId textToAnalyze ;;
          ins <- await (json response) ;;
          modify (displayInsights ins) ;;
          showRelatedSections W docId textToAnalyze)
       (fun error =>
          console_error (lit "Analysis failed:") error ;;
          alert (lit "Analysis failed: " ++ message error)))
    (showLoading false).

(** [podcast.script || podcast.text_content || pdfText] *)
Definition opt_string (o : option jsstring) : jsstring :=
  match o with Some s => s | None => [] end.

Definition resolve_script (podcast : PodcastResponse) (pdfText : jsstring) : jsstring :=
  or_else (or_else (opt_string (script podcast)) (opt_string (text_content podcast))) pdfText.

(** [currentDocumentId] is read once: nothing else runs in between. *)
Definition generatePodcast {num} (W : World num) : M unit :=
  current <- get currentDocumentId ;;
  match current with
  | None => ret tt
  | Some docId =>
      if negb (truthy docId) then ret tt
      else
        showLoading true ;;
        try_finally
          (try_catch
             (pdfText <- extractTextFromPDF W docId ;;
              if insufficient podcast_threshold pdfText
              then alert podcast_alert ;; showLoading false          (* return *)
              else
                response <- fetch_podcast W docId pdfText ;;
                podcast <- await (json response) ;;
                let podcastText := resolve_script podcast pdfText in
                modify (set_currentPodcastText (Some podcastText)) ;;
                modify (set_podcastContent
                          (escapeHtml (substring0 500 podcastText) ++ ellipsis)) ;;
                modify (set_display podcastContainer DisplayBlock))
             (fun error =>
                console_error (lit "Podcast generation failed:") error ;;
                alert (lit "Podcast generation failed: " ++ message error)))
          (showLoading false)
  end.

Definition analyzeFullDocument {num} (W : World num) : M unit :=
  current <- get currentDocumentId ;;
  match current with
  | None => ret tt
  | Some docId =>
      if negb (truthy docId) then ret tt else analyzeDocument W docId None
  end.

Definition delete_confirm : jsstring :=
  lit "Are you sure you want to delete this document?".

(** [loadDocuments()] is started without [await]; it catches its own
    errors, and here it runs at the point of the call. *)
Definition deleteDocument {num} (W : World num) (docId : DocId) : M unit :=
  emit (EvConfirm delete_confirm) ;;
  if negb (confirm W delete_confirm) then ret tt
  else
    try_catch
      (response <- fetch_delete W docId ;;
       if ok response
       then alert (lit "Document deleted successfully") ;; loadDocuments W
       else throw (mkError (lit "Delete failed")))
      (fun error => alert (lit "Delete failed: " ++ message error)).

(* ================================================================== *)
(** ** Observations used in the statements *)

(** Requests, alerts, console reports and page reads among some events. *)
Definition fetches (evs : list Event) : list Request :=
  flat_map (fun ev => match ev with EvFetch r => [r] | _ => [] end) evs.

Definition alerts (evs : list Event) : list jsstring :=
  flat_map (fun ev => match ev with EvAlert m => [m] | _ => [] end) evs.

Definition console_errors (evs : list Event) : list (jsstring * JSError) :=
  flat_map (fun ev => match ev with EvConsoleError l e => [(l, e)] | _ => [] end) evs.

Definition pages_read (evs : list Event) : list nat :=
  flat_map (fun ev => match ev with EvGetPage n => [n] | _ => [] end) evs.

(** The page reads of a loop that starts at page [p] and reads [k] pages. *)
Definition page_events (p k : nat) : list Event := map EvGetPage (seq p k).

(** The events recorded between state [s] and a later state [s']. *)
Definition events_since (s s' : State) : list Event :=
  skipn (length (trace s)) (trace s').

(** Running a computation: its completion, its final state, its events. *)
Definition completion_of {A} (m : M A) (s : State) : completion A := fst (m s).
Definition state_after {A} (m : M A) (s : State) : State := snd (m s).
Definition events_of {A} (m : M A) (s : State) : list Event :=
  events_since s (state_after m s).

(** What reading page [i] gives: [getPage] then [getTextContent]. *)
Definition page_items (pdf : PDFDocument) (i : nat) : outcome (list TextItem) :=
  match getPage pdf i with
  | Resolved pg => getTextContent pg
  | Rejected e => Rejected e
  end.

(** Text of pages [p], ..., [p + k - 1], each followed by the separator. *)
Definition pages_text (items : nat -> list TextItem) (p k : nat) : jsstring :=
  concat (map (fun i => pageTextOf (items i) ++ blank_line) (seq p k)).

(** The text each extraction returns (it does not depend on the state). *)
Definition sample_text {num} (W : World num) (docId : DocId) : jsstring :=
  match completion_of (extractSampleTextFromPDF W docId) initial_state with
  | Normal t => t
  | Throw _ => []
  end.

Definition full_text {num} (W : World num) (docId : DocId) : jsstring :=
  match completion_of (extractTextFromPDF W docId) initial_state with
  | Normal t => t
  | Throw _ => []
  end.

(** [textToAnalyze] in [analyzeDocument]. *)
Definition text_to_analyze {num} (W : World num) (docId : DocId)
  (specificText : option jsstring) : jsstring :=
  match specificText with
  | Some t => if truthy t then t else full_text W docId
  | None => full_text W docId
  end.

(** The [try] block of an extraction raises (from some state, hence from
    every state: it reads nothing of the state). *)
Definition sample_extraction_fails {num} (W : World num) (docId : DocId) : Prop :=
  exists e s, completion_of (extractSampleTextFromPDF_try W docId) s = Throw e.

Definition full_extraction_fails {num} (W : World num) (docId : DocId) : Prop :=
  exists e s, completion_of (extractTextFromPDF_try W docId) s = Throw e.

(** An insight response arrived and its body decoded, whatever its status. *)
Definition insights_decoded {num} (W : World num) (docId : DocId) (txt : jsstring)
  (ins : InsightsResponse) : Prop :=
  exists response,
    api_insights W docId txt = Resolved response /\ json response = Resolved ins.

(** Whether [pat] occurs in [s]. *)
Fixpoint starts_with (pat s : jsstring) : bool :=
  match pat, s with
  | [], _ => true
  | p :: pat', c :: s' => (p =? c)%N && starts_with pat' s'
  | _ :: _, [] => false
  end.

Fixpoint occurs (pat s : jsstring) : bool :=
  starts_with pat s
  || match s with
     | [] => false
     | _ :: s' => occurs pat s'
     end.

(** A key that names something a registry can inherit: [__proto__], a
    member of [Object.prototype], or a field of a listed document. *)
Definition inherited_name (k : jsstring) : bool :=
  jsstring_eqb k proto_key
  || existsb (jsstring_eqb k) object_prototype_names
  || existsb (jsstring_eqb k)
       [lit "id"; lit "title"; lit "filename"; lit "page_count"; lit "processed_at"].

Definition shows_four_fields (v : option InsightsView) : bool :=
  match v with
  | Some (InsightSections _ _ _ _) => true
  | _ => false
  end.

(** How one insight field is rendered: a provided field shows its values,
    an absent one the single placeholder. *)
Definition rendered_field (field : option (list jsstring)) (placeholder : jsstring)
  (items : list jsstring) : Prop :=
  match field with
  | Some values => map html_text items = values
  | None => items = [placeholder]
  end.

(* ================================================================== *)
(** ** Sample documents and backends *)

Module Examples.

Definition doc7 : DocId := lit "doc-7".

(** A page holding one run of 1200 letters. *)
Definition long_page : list TextItem := [mkItem (repeat 97%N 1200)].

(** A page holding two short fragments. *)
Definition short_page : list TextItem := [mkItem (lit "Hello"); mkItem (lit "world")].

Definition pdf_long : PDFDocument :=
  mkPDF 5 (fun _ => Resolved (mkPage (Resolved long_page))).

Definition pdf_short : PDFDocument :=
  mkPDF 2 (fun _ => Resolved (mkPage (Resolved short_page))).

Definition network_down : JSError := mkError (lit "Failed to fetch").

Definition bundle_without_connections : InsightBundle :=
  mkBundle (Some [lit "Costs fell"; lit "R&D grew"])
           (Some [lit "Founded in 1982"])
           (Some [])
           None.

Definition podcast_A : PodcastResponse := mkPodcast (Some (lit "A")) None.
Definition podcast_B : PodcastResponse := mkPodcast None (Some (lit "B")).

(** Integer scores; [toFixed] appends the requested zeros. *)
Definition toFixed_Z (x : Z) (digits : nat) : jsstring :=
  Z_toString x ++ lit "." ++ repeat 48%N digits.

(** A backend that answers every request; the related-sections request
    is rejected, and [source] decides how documents open. *)
Definition world_with (source : DocId -> outcome PDFDocument) : World Z :=
  mkWorld source
    (fun _ _ => Resolved (mkResponse true
                   (Resolved (mkInsights (Some bundle_without_connections)))))
    (fun _ _ _ => Rejected network_down)
    (fun _ _ => Resolved (mkResponse true (Resolved podcast_A)))
    (fun _ => Resolved (mkResponse true (Resolved tt)))
    (Resolved (mkResponse true (Resolved (mkListing []))))
    (fun _ => true)
    toFixed_Z
    (mkError (lit "Cannot read properties of undefined"))
    (mkError (lit "URI malformed"))
    (fun z => negb (z =? 0)%Z)
    Z_toString.

Definition W_long : World Z := world_with (fun _ => Resolved pdf_long).
Definition W_short : World Z := world_with (fun _ => Resolved pdf_short).
Definition W_broken : World Z := world_with (fun _ => Rejected network_down).

(** [doc-7] is open and an earlier narration is still stored. *)
Definition st_open : State :=
  viewDocument doc7 (set_currentPodcastText (Some (lit "old narration")) initial_state).

End Examples.

(* ================================================================== *)
(** ** The rest of the script *)

Definition set_modals (v : list QuickInsightsModal) (s : State) : State :=
  mkState (currentDocumentId s) (currentPodcastText s) (documents_metadata s)
    (style_display s) (pdfViewer_src s) (currentDocTitle s) (documentsGrid s)
    (insightsContent s) (relatedContent s) (podcastContent s) v (trace s).

(** [closeModal]: [getElementById] finds the first element carrying the
    id, which is the modal appended first. *)
Definition closeModal (s : State) : State :=
  match modals s with
  | [] => s
  | _ :: rest => set_modals rest s
  end.

(** The registry [loadDocuments] builds with [reduce]. *)
Definition registry_of (docs : list DocumentMetadata) : list (DocId * DocumentMetadata) :=
  fold_left (fun acc doc => metadata_insert (id doc) doc acc) docs [].

(** The last listed document with a given id. *)
Definition last_listed (docId : DocId) (docs : list DocumentMetadata)
  : option DocumentMetadata :=
  find (fun doc => jsstring_eqb (id doc) docId) (rev docs).

(** Documents opened through pdf.js among some events. *)
Definition documents_opened (evs : list Event) : list DocId :=
  flat_map (fun ev => match ev with EvGetDocument d => [d] | _ => [] end) evs.

(** *** Narration playback (Web Speech API) *)

Record Utterance := mkUtterance {
  utterance_text : jsstring;
  rate : Decimal.decimal;
  pitch : Decimal.decimal;
  volume : Decimal.decimal
}.

(** Calls made on [speechSynthesis]. *)
Inductive SpeechCall :=
| SpeechCancel
| SpeechSpeak (u : Utterance).

Definition decimal_0_8 : Decimal.decimal :=
  Decimal.Decimal (Decimal.Pos (Decimal.D0 Decimal.Nil)) (Decimal.D8 Decimal.Nil).
Definition decimal_1 : Decimal.decimal :=
  Decimal.Decimal (Decimal.Pos (Decimal.D1 Decimal.Nil)) Decimal.Nil.

(** [playPodcast]; [speaking] is the value of [speechSynthesis.speaking]
    when the function runs. *)
Definition playPodcast (speaking : bool) (s : State) : list SpeechCall :=
  match currentPodcastText s with
  | None => []
  | Some podcastText =>
      if negb (truthy podcastText) then []
      else
        (if speaking then [SpeechCancel] else [])
        ++ [SpeechSpeak (mkUtterance podcastText decimal_0_8 decimal_1 decimal_1)]
  end.

Definition stopPodcast (speaking : bool) : list SpeechCall :=
  if speaking then [SpeechCancel] else [].

(** *** Upload form *)

Definition File := jsstring.   (* a selected file, by name *)

Record UploadResult := mkUploadResult { uploaded : option nat }.

(** The file input, the line under it, and the multipart bodies posted to
    [/api/upload/bulk] (each the files appended under the key [files]). *)
Record UploadForm := mkForm {
  fileInput_files : list File;
  selectedFiles : jsstring;
  posted : list (list File)
}.

Definition nat_toString (n : nat) : jsstring :=
  lit (NilZero.string_of_uint (Nat.to_uint n)).

(** The [change] listener of the file input. *)
Definition on_file_change (files : list File) (form : UploadForm) : UploadForm :=
  mkForm files
    (if 0 <? length files
     then lit "<strong>Selected files:</strong> " ++ nat_toString (length files)
          ++ lit " PDF(s) ready for upload"
     else [])
    (posted form).

Definition check_mark : jsstring := [9989%N].   (* U+2705 *)
Definition cross_mark : jsstring := [10060%N].  (* U+274C *)

Definition upload_success_alert (result : UploadResult) : jsstring :=
  check_mark ++ lit " Successfully uploaded "
  ++ match uploaded result with
     | Some n => nat_toString n
     | None => lit "undefined"
     end
  ++ lit " documents! Processing in background...".

(** [uploadFile]; [api_upload] is how the POST settles for a given body.
    The form is threaded by hand: it is written once before anything can
    raise (the body is posted) and once after everything that can. *)
Definition uploadFile {num} (W : World num)
  (api_upload : list File -> outcome (Response UploadResult))
  (form : UploadForm) : M UploadForm :=
  match fileInput_files form with
  | [] => alert (lit "Please select at least one PDF file") ;; ret form
  | _ :: _ =>
      let sent := mkForm (fileInput_files form) (selectedFiles form)
                         (posted form ++ [fileInput_files form]) in
      showLoading true ;;
      try_finally
        (try_catch
           (response <- await (api_upload (fileInput_files form)) ;;
            if ok response
            then
              result <- await (json response) ;;
              alert (upload_success_alert result) ;;
              loadDocuments W ;;
              ret (mkForm [] [] (posted sent))
            else throw (mkError (lit "Upload failed")))
           (fun error =>
              alert (cross_mark ++ lit " Upload failed: " ++ message error) ;;
              ret sent))
        (showLoading false)
  end.

Module MoreExamples.

Definition report : DocumentMetadata :=
  mkDoc (lit "doc-7") (lit "Annual report") None 12 (lit "2024-01-05").
Definition report_v2 : DocumentMetadata :=
  mkDoc (lit "doc-7") (lit "Annual report (revised)") None 14 (lit "2024-02-01").
Definition memo : DocumentMetadata :=
  mkDoc (lit "doc-9") (lit "Memo") None 1 (lit "2024-01-07").

(** The sample backend with a chosen answer to the listing request. *)
Definition world_listing (listing : outcome (Response DocumentsListing)) : World Z :=
  mkWorld (fun _ => Resolved Examples.pdf_long)
    (fun _ _ => Resolved (mkResponse true
                   (Resolved (mkInsights (Some Examples.bundle_without_connections)))))
    (fun _ _ _ => Rejected Examples.network_down)
    (fun _ _ => Resolved (mkResponse true (Resolved Examples.podcast_A)))
    (fun _ => Resolved (mkResponse true (Resolved tt)))
    listing
    (fun _ => true)
    Examples.toFixed_Z
    (mkError (lit "Cannot read properties of undefined"))
    (mkError (lit "URI malformed"))
    (fun z => negb (z =? 0)%Z)
    Z_toString.

Definition W_listed : World Z :=
  world_listing (Resolved (mkResponse true (Resolved (mkListing [report; memo; report_v2])))).

Definition W_offline : World Z := world_listing (Rejected Examples.network_down).

(** A state whose registry knows [doc-7] and [doc-9]. *)
Definition st_listed : State :=
  set_documents_metadata (registry_of [report; memo]) initial_state.

Definition two_files : UploadForm :=
  on_file_change [lit "a.pdf"; lit "b.pdf"] (mkForm [] [] []).

(** Variations of a backend, one answer at a time. *)
Definition with_source (f : DocId -> outcome PDFDocument) (W : World Z) : World Z :=
  mkWorld f (api_insights W) (api_related W) (api_podcast W) (api_delete W)
    (api_documents W) (confirm W) (toFixed W) (type_error W)
    (uri_error W) (number_truthy W) (number_toString W).

Definition with_insights (f : DocId -> jsstring -> outcome (Response InsightsResponse))
  (W : World Z) : World Z :=
  mkWorld (getDocument W) f (api_related W) (api_podcast W) (api_delete W)
    (api_documents W) (confirm W) (toFixed W) (type_error W)
    (uri_error W) (number_truthy W) (number_toString W).

Definition with_related
  (f : DocId -> jsstring -> nat -> outcome (Response (option (list (RelatedSection Z)))))
  (W : World Z) : World Z :=
  mkWorld (getDocument W) (api_insights W) f (api_podcast W) (api_delete W)
    (api_documents W) (confirm W) (toFixed W) (type_error W)
    (uri_error W) (number_truthy W) (number_toString W).

Definition with_delete (f : DocId -> outcome (Response unit)) (W : World Z) : World Z :=
  mkWorld (getDocument W) (api_insights W) (api_related W) (api_podcast W) f
    (api_documents W) (confirm W) (toFixed W) (type_error W)
    (uri_error W) (number_truthy W) (number_toString W).

Definition with_confirm (f : jsstring -> bool) (W : World Z) : World Z :=
  mkWorld (getDocument W) (api_insights W) (api_related W) (api_podcast W)
    (api_delete W) (api_documents W) f (toFixed W) (type_error W)
    (uri_error W) (number_truthy W) (number_toString W).

(** Two pages of 80 letters each. *)
Definition medium_page : list TextItem := [mkItem (repeat 98%N 80)].
Definition pdf_medium : PDFDocument :=
  mkPDF 2 (fun _ => Resolved (mkPage (Resolved medium_page))).

Definition W_medium : World Z := with_source (fun _ => Resolved pdf_medium) W_listed.

Definition W_declined : World Z := with_confirm (fun _ => false) W_listed.
Definition W_refused : World Z :=
  with_delete (fun _ => Resolved (mkResponse false (Resolved tt))) W_listed.

Definition section_full : RelatedSection Z :=
  mkSection (Some (lit "Profit rose")) (Some (mkMeta (Some 4%Z))) (Some 1%Z).
Definition section_without_text : RelatedSection Z := mkSection None None None.

Definition W_related_bad : World Z :=
  with_related
    (fun _ _ _ => Resolved (mkResponse true
                    (Resolved (Some [section_full; section_without_text]))))
    W_medium.
Definition W_insights_down : World Z :=
  with_insights (fun _ _ => Rejected Examples.network_down) W_medium.

(** Both analysis endpoints answer with a refused status and a body that
    decodes: an object without [insights], and null. *)
Definition W_status_500 : World Z :=
  with_related (fun _ _ _ => Resolved (mkResponse false (Resolved None)))
    (with_insights
       (fun _ _ => Resolved (mkResponse false (Resolved (mkInsights None))))
       W_medium).

(** A section whose text is a double quote followed by [><!--]. *)
Definition injection_text : jsstring := dq ++ lit "><!--".
Definition W_related_injection : World Z :=
  with_related
    (fun _ _ _ => Resolved (mkResponse true
                    (Resolved (Some [mkSection (Some injection_text) None None]))))
    W_medium.

Definition upload_accepted : list File -> outcome (Response UploadResult) :=
  fun _ => Resolved (mkResponse true (Resolved (mkUploadResult (Some 2)))).
Definition upload_down : list File -> outcome (Response UploadResult) :=
  fun _ => Rejected Examples.network_down.

End MoreExamples.

(* ================================================================== *)
(** ** Strings: lengths and markup *)

Lemma trimStart_length (s : jsstring) : length (trimStart s) <= length s.
Proof.
  induction s as [|c s IH]; simpl; [lia|].
  destruct (is_white_space c); simpl; lia.
Qed.

Lemma trim_length (s : jsstring) : length (trim s) <= length s.
Proof.
  unfold trim, trimEnd.
  rewrite length_rev.
  etransitivity; [apply trimStart_length|].
  rewrite length_rev. apply trimStart_length.
Qed.

Lemma trim_nil : trim [] = [].
Proof. reflexivity. Qed.

Lemma insufficient_length (n : nat) (t : jsstring) :
  0 < n -> insufficient n t = (length (trim t) <? n).
Proof.
  intros Hn. unfold insufficient.
  destruct t as [|c t]; simpl truthy; simpl negb; [|reflexivity].
  rewrite trim_nil. simpl length. symmetry. apply Nat.ltb_lt. exact Hn.
Qed.

Lemma html_text_escape_app (s t : jsstring) :
  html_text (flat_map escape_char s ++ t) = s ++ html_text t.
Proof.
  induction s as [|c s IH]; [reflexivity|].
  cbn [flat_map]. rewrite <- app_assoc. unfold escape_char.
  destruct (c =? 38)%N eqn:E38.
  { apply N.eqb_eq in E38. subst c. cbn. f_equal. exact IH. }
  destruct (c =? 60)%N eqn:E60.
  { apply N.eqb_eq in E60. subst c. cbn. f_equal. exact IH. }
  destruct (c =? 62)%N eqn:E62.
  { apply N.eqb_eq in E62. subst c. cbn. f_equal. exact IH. }
  destruct (c =? 160)%N eqn:E160.
  { apply N.eqb_eq in E160. subst c. cbn. f_equal. exact IH. }
  cbn [app html_text]. rewrite E38. cbn [negb]. f_equal. exact IH.
Qed.

(** Escaped text reads back as the text itself. *)
Lemma html_text_escapeHtml (s : jsstring) : html_text (escapeHtml s) = s.
Proof.
  unfold escapeHtml. destruct s as [|c s]; [reflexivity|].
  cbn [truthy negb].
  rewrite <- (app_nil_r (flat_map escape_char (c :: s))).
  rewrite html_text_escape_app. cbn [html_text]. apply app_nil_r.
Qed.

Lemma html_text_escapeHtml_app (s t : jsstring) :
  html_text (escapeHtml s ++ t) = s ++ html_text t.
Proof.
  unfold escapeHtml. destruct s as [|c s]; [reflexivity|].
  cbn [truthy negb]. apply html_text_escape_app.
Qed.

Lemma map_html_text_escapeHtml (l : list jsstring) :
  map html_text (map escapeHtml l) = l.
Proof.
  induction l as [|x l IH]; [reflexivity|].
  cbn [map]. now rewrite html_text_escapeHtml, IH.
Qed.

(* ================================================================== *)
(** ** Events and states *)

Lemma add_events_nil (s : State) : add_events [] s = s.
Proof. destruct s. unfold add_events. cbn. now rewrite app_nil_r. Qed.

Lemma add_events_app (a b : list Event) (s : State) :
  add_events b (add_events a s) = add_events (a ++ b) s.
Proof. unfold add_events. cbn. now rewrite app_assoc. Qed.

Lemma events_since_app (s s' : State) (evs : list Event) :
  trace s' = trace s ++ evs -> events_since s s' = evs.
Proof.
  intros H. unfold events_since. rewrite H.
  rewrite skipn_app, skipn_all, Nat.sub_diag. reflexivity.
Qed.

Lemma fetches_app (a b : list Event) : fetches (a ++ b) = fetches a ++ fetches b.
Proof. apply flat_map_app. Qed.

Lemma alerts_app (a b : list Event) : alerts (a ++ b) = alerts a ++ alerts b.
Proof. apply flat_map_app. Qed.

Lemma console_errors_app (a b : list Event) :
  console_errors (a ++ b) = console_errors a ++ console_errors b.
Proof. apply flat_map_app. Qed.

Lemma pages_read_app (a b : list Event) :
  pages_read (a ++ b) = pages_read a ++ pages_read b.
Proof. apply flat_map_app. Qed.

Lemma page_events_S (p k : nat) :
  EvGetPage p :: page_events (S p) k = page_events p (S k).
Proof. reflexivity. Qed.

Lemma pages_read_page_events (p k : nat) : pages_read (page_events p k) = seq p k.
Proof.
  revert p. induction k as [|k IH]; intros p; [reflexivity|].
  cbn. f_equal. apply IH.
Qed.

Lemma pages_read_getDocument (d : DocId) (evs : list Event) :
  pages_read (EvGetDocument d :: evs) = pages_read evs.
Proof. reflexivity. Qed.

Lemma fetches_page_events (p k : nat) : fetches (page_events p k) = [].
Proof. revert p. induction k as [|k IH]; intros p; [reflexivity|]. cbn. apply IH. Qed.

Lemma alerts_page_events (p k : nat) : alerts (page_events p k) = [].
Proof. revert p. induction k as [|k IH]; intros p; [reflexivity|]. cbn. apply IH. Qed.

(* ================================================================== *)
(** ** Text extraction *)

Lemma sample_loop_step (pdf : PDFDocument) (r p : nat) (acc : jsstring) (st : State) :
  sample_loop pdf (S r) p acc st =
  match page_items pdf p with
  | Rejected e => (Throw e, add_events [EvGetPage p] st)
  | Resolved items =>
      let acc' := acc ++ pageTextOf items ++ blank_line in
      if 1000 <? length acc'
      then (Normal (substring0 1000 acc' ++ ellipsis), add_events [EvGetPage p] st)
      else sample_loop pdf r (S p) acc' (add_events [EvGetPage p] st)
  end.
Proof.
  unfold page_items. cbn [sample_loop].
  unfold bind, emit, modify, await, ret, throw.
  destruct (getPage pdf p) as [pg|e]; [|reflexivity].
  destruct (getTextContent pg) as [items|e]; [|reflexivity].
  cbv zeta. destruct (1000 <? _); reflexivity.
Qed.

Lemma full_loop_step (pdf : PDFDocument) (r p : nat) (acc : jsstring) (st : State) :
  full_loop pdf (S r) p acc st =
  match page_items pdf p with
  | Rejected e => (Throw e, add_events [EvGetPage p] st)
  | Resolved items =>
      full_loop pdf r (S p) (acc ++ pageTextOf items ++ blank_line)
        (add_events [EvGetPage p] st)
  end.
Proof.
  unfold page_items. cbn [full_loop].
  unfold bind, emit, modify, await, ret, throw.
  destruct (getPage pdf p) as [pg|e]; [|reflexivity].
  destruct (getTextContent pg) as [items|e]; reflexivity.
Qed.

(** The sample loop reads pages [p], [p+1], ... and stops after at most
    [r] of them; a text it returns has at most 1000 characters plus the
    ellipsis. *)
Lemma sample_loop_run (pdf : PDFDocument) (r : nat) :
  forall (p : nat) (acc : jsstring),
    length acc <= 1000 ->
    exists c k,
      k <= r
      /\ (forall st, sample_loop pdf r p acc st = (c, add_events (page_events p k) st))
      /\ match c with
         | Normal s => length s <= 1000 + length ellipsis
         | Throw _ => True
         end.
Proof.
  induction r as [|r IH]; intros p acc Hacc.
  - exists (Normal acc), 0. split; [lia|]. split.
    + intros st. cbn [sample_loop page_events seq map].
      now rewrite add_events_nil.
    + lia.
  - destruct (page_items pdf p) as [items|e] eqn:Hp.
    + destruct (1000 <? length (acc ++ pageTextOf items ++ blank_line)) eqn:Hlen.
      * exists (Normal (substring0 1000 (acc ++ pageTextOf items ++ blank_line) ++ ellipsis)), 1.
        split; [lia|]. split.
        -- intros st. rewrite sample_loop_step, Hp. cbv zeta. now rewrite Hlen.
        -- unfold substring0. rewrite length_app, length_firstn. lia.
      * apply Nat.ltb_ge in Hlen.
        destruct (IH (S p) (acc ++ pageTextOf items ++ blank_line) Hlen)
          as (c & k & Hk & Hrun & Hc).
        exists c, (S k). split; [lia|]. split; [|exact Hc].
        intros st. rewrite sample_loop_step, Hp. cbv zeta.
        apply Nat.ltb_ge in Hlen. rewrite Hlen.
        rewrite Hrun, add_events_app. reflexivity.
    + exists (Throw e), 1. split; [lia|]. split; [|exact I].
      intros st. now rewrite sample_loop_step, Hp.
Qed.

(** When every page is readable and the text stays within 1000
    characters, the sample loop returns all of it. *)
Lemma sample_loop_all (pdf : PDFDocument) (items : nat -> list TextItem) (r : nat) :
  forall (p : nat) (acc : jsstring) (st : State),
    (forall i, p <= i < p + r -> page_items pdf i = Resolved (items i)) ->
    length (acc ++ pages_text items p r) <= 1000 ->
    sample_loop pdf r p acc st =
    (Normal (acc ++ pages_text items p r), add_events (page_events p r) st).
Proof.
  induction r as [|r IH]; intros p acc st Hpages Hlen.
  - cbn. unfold ret. now rewrite app_nil_r, add_events_nil.
  - rewrite sample_loop_step, (Hpages p) by lia. cbv zeta.
    unfold pages_text in *. cbn [seq map concat] in *.
    rewrite <- app_assoc in Hlen.
    assert (Hle : length (acc ++ pageTextOf (items p) ++ blank_line) <= 1000).
    { rewrite !length_app in *. lia. }
    apply Nat.ltb_ge in Hle. rewrite Hle.
    rewrite IH.
    + rewrite add_events_app. rewrite <- !app_assoc. reflexivity.
    + intros i Hi. apply Hpages. lia.
    + rewrite <- !app_assoc. rewrite !length_app in *. lia.
Qed.

Lemma full_loop_run (pdf : PDFDocument) (r : nat) :
  forall (p : nat) (acc : jsstring),
    exists c k,
      k <= r
      /\ (forall st, full_loop pdf r p acc st = (c, add_events (page_events p k) st)).
Proof.
  induction r as [|r IH]; intros p acc.
  - exists (Normal acc), 0. split; [lia|].
    intros st. cbn. unfold ret. now rewrite add_events_nil.
  - destruct (page_items pdf p) as [items|e] eqn:Hp.
    + destruct (IH (S p) (acc ++ pageTextOf items ++ blank_line)) as (c & k & Hk & Hrun).
      exists c, (S k). split; [lia|].
      intros st. rewrite full_loop_step, Hp, Hrun, add_events_app. reflexivity.
    + exists (Throw e), 1. split; [lia|].
      intros st. now rewrite full_loop_step, Hp.
Qed.

(** Full mode keeps every character of the pages it reads. *)
Lemma full_loop_all (pdf : PDFDocument) (items : nat -> list TextItem) (r : nat) :
  forall (p : nat) (acc : jsstring) (st : State),
    (forall i, p <= i < p + r -> page_items pdf i = Resolved (items i)) ->
    full_loop pdf r p acc st =
    (Normal (acc ++ pages_text items p r), add_events (page_events p r) st).
Proof.
  induction r as [|r IH]; intros p acc st Hpages.
  - cbn. unfold ret. now rewrite app_nil_r, add_events_nil.
  - rewrite full_loop_step, (Hpages p) by lia.
    rewrite IH by (intros i Hi; apply Hpages; lia).
    rewrite add_events_app. unfold pages_text. cbn [seq map concat].
    rewrite <- !app_assoc. reflexivity.
Qed.

Section Extraction.
Context {num : Type} (W : World num) (docId : DocId).

Lemma extractSample_try_run :
  exists c k,
    (forall st, extractSampleTextFromPDF_try W docId st =
                (c, add_events (EvGetDocument docId :: page_events 1 k) st))
    /\ k <= 3
    /\ (forall pdf, getDocument W docId = Resolved pdf -> k <= Nat.min (numPages pdf) 3)
    /\ match c with
       | Normal s => length s <= 1000 + length ellipsis
       | Throw _ => True
       end.
Proof.
  unfold extractSampleTextFromPDF_try.
  destruct (getDocument W docId) as [pdf|e] eqn:Hdoc.
  - destruct (@sample_loop_run pdf (Nat.min (numPages pdf) 3) 1 [])
      as (c & k & Hk & Hrun & Hc); [cbn; lia|].
    exists (match c with Normal s => Normal (trim s) | Throw e => Throw e end), k.
    split; [|split; [lia|split]].
    + intros st. unfold bind, emit, modify, await, ret. cbv zeta.
      rewrite Hrun, add_events_app. cbn [app]. destruct c; reflexivity.
    + intros pdf' Heq. injection Heq as <-. exact Hk.
    + destruct c as [s|e]; [|exact I].
      etransitivity; [apply trim_length|exact Hc].
  - exists (Throw e), 0. split; [|split; [lia|split; [discriminate|exact I]]].
    intros st. reflexivity.
Qed.

Lemma extractText_try_run :
  exists c k,
    (forall st, extractTextFromPDF_try W docId st =
                (c, add_events (EvGetDocument docId :: page_events 1 k) st))
    /\ k <= 10
    /\ (forall pdf, getDocument W docId = Resolved pdf -> k <= Nat.min (numPages pdf) 10).
Proof.
  unfold extractTextFromPDF_try.
  destruct (getDocument W docId) as [pdf|e] eqn:Hdoc.
  - destruct (full_loop_run pdf (Nat.min (numPages pdf) 10) 1 [])
      as (c & k & Hk & Hrun).
    exists (match c with Normal s => Normal (trim s) | Throw e => Throw e end), k.
    split; [|split; [lia|]].
    + intros st. unfold bind, emit, modify, await, ret. cbv zeta.
      rewrite Hrun, add_events_app. cbn [app]. destruct c; reflexivity.
    + intros pdf' Heq. injection Heq as <-. exact Hk.
  - exists (Throw e), 0. split; [|split; [lia|discriminate]].
    intros st. reflexivity.
Qed.

(** What a run of [extractSampleTextFromPDF] does, from any state. *)
Lemma extractSample_run :
  exists evs k,
    (forall st, extractSampleTextFromPDF W docId st =
                (Normal (sample_text W docId), add_events evs st))
    /\ pages_read evs = seq 1 k
    /\ k <= 3
    /\ (forall pdf, getDocument W docId = Resolved pdf -> k <= Nat.min (numPages pdf) 3)
    /\ fetches evs = [] /\ alerts evs = []
    /\ length (sample_text W docId) <= 1000 + length ellipsis
    /\ (sample_extraction_fails W docId -> sample_text W docId = sample_fallback).
Proof.
  destruct extractSample_try_run as (c & k & Hrun & Hk3 & Hk & Hc).
  assert (Hfail : forall e, sample_extraction_fails W docId -> c = Normal e -> False).
  { intros t (e & s & He) ->. unfold completion_of in He. rewrite Hrun in He. discriminate. }
  destruct c as [t|e].
  - exists (EvGetDocument docId :: page_events 1 k), k.
    assert (Hall : forall st, extractSampleTextFromPDF W docId st =
              (Normal t, add_events (EvGetDocument docId :: page_events 1 k) st)).
    { intros st. unfold extractSampleTextFromPDF, try_catch. now rewrite Hrun. }
    assert (Ht : sample_text W docId = t).
    { unfold sample_text, completion_of. now rewrite Hall. }
    rewrite Ht. repeat split; auto.
    + cbn. apply pages_read_page_events.
    + cbn. apply fetches_page_events.
    + cbn. apply alerts_page_events.
    + intros Hf. exfalso. eapply Hfail; eauto.
  - exists ((EvGetDocument docId :: page_events 1 k)
             ++ [EvConsoleError (lit "PDF sample extraction failed:") e]), k.
    assert (Hall : forall st, extractSampleTextFromPDF W docId st =
              (Normal sample_fallback,
               add_events ((EvGetDocument docId :: page_events 1 k)
                 ++ [EvConsoleError (lit "PDF sample extraction failed:") e]) st)).
    { intros st. unfold extractSampleTextFromPDF, try_catch. rewrite Hrun.
      unfold bind, console_error, emit, modify, ret.
      now rewrite add_events_app. }
    assert (Ht : sample_text W docId = sample_fallback).
    { unfold sample_text, completion_of. now rewrite Hall. }
    rewrite Ht. repeat split; auto.
    + rewrite pages_read_app. cbn. rewrite pages_read_page_events. apply app_nil_r.
    + rewrite fetches_app. cbn. rewrite fetches_page_events. reflexivity.
    + rewrite alerts_app. cbn. rewrite alerts_page_events. reflexivity.
    + vm_compute. lia.
Qed.

(** What a run of [extractTextFromPDF] does, from any state. *)
Lemma extractText_run :
  exists evs k,
    (forall st, extractTextFromPDF W docId st =
                (Normal (full_text W docId), add_events evs st))
    /\ pages_read evs = seq 1 k
    /\ k <= 10
    /\ (forall pdf, getDocument W docId = Resolved pdf -> k <= Nat.min (numPages pdf) 10)
    /\ fetches evs = [] /\ alerts evs = []
    /\ (full_extraction_fails W docId -> full_text W docId = full_fallback).
Proof.
  destruct extractText_try_run as (c & k & Hrun & Hk10 & Hk).
  assert (Hfail : forall e, full_extraction_fails W docId -> c = Normal e -> False).
  { intros t (e & s & He) ->. unfold completion_of in He. rewrite Hrun in He. discriminate. }
  destruct c as [t|e].
  - exists (EvGetDocument docId :: page_events 1 k), k.
    assert (Hall : forall st, extractTextFromPDF W docId st =
              (Normal t, add_events (EvGetDocument docId :: page_events 1 k) st)).
    { intros st. unfold extractTextFromPDF, try_catch. now rewrite Hrun. }
    assert (Ht : full_text W docId = t).
    { unfold full_text, completion_of. now rewrite Hall. }
    rewrite Ht. repeat split; auto.
    + cbn. apply pages_read_page_events.
    + cbn. apply fetches_page_events.
    + cbn. apply alerts_page_events.
    + intros Hf. exfalso. eapply Hfail; eauto.
  - exists ((EvGetDocument docId :: page_events 1 k)
             ++ [EvConsoleError (lit "PDF text extraction failed:") e]), k.
    assert (Hall : forall st, extractTextFromPDF W docId st =
              (Normal full_fallback,
               add_events ((EvGetDocument docId :: page_events 1 k)
                 ++ [EvConsoleError (lit "PDF text extraction failed:") e]) st)).
    { intros st. unfold extractTextFromPDF, try_catch. rewrite Hrun.
      unfold bind, console_error, emit, modify, ret.
      now rewrite add_events_app. }
    assert (Ht : full_text W docId = full_fallback).
    { unfold full_text, completion_of. now rewrite Hall. }
    rewrite Ht. repeat split; auto.
    + rewrite pages_read_app. cbn. rewrite pages_read_page_events. apply app_nil_r.
    + rewrite fetches_app. cbn. rewrite fetches_page_events. reflexivity.
    + rewrite alerts_app. cbn. rewrite alerts_page_events. reflexivity.
Qed.

End Extraction.

(* ================================================================== *)
(** ** Runs of the three operations *)

Ltac run_monad :=
  unfold bind, try_catch, try_finally, showLoading, alert, console_error,
    emit, modify, get, await, ret, throw, lift.

Ltac state_simpl :=
  cbn [trace snd fst set_display add_events add_modal set_insightsContent
       set_relatedContent set_podcastContent set_currentPodcastText
       set_documents_metadata set_documentsGrid set_currentDocumentId
       set_pdfViewer_src set_currentDocTitle
       currentDocumentId currentPodcastText documents_metadata style_display
       insightsContent relatedContent podcastContent modals
       showQuickInsights displayInsights displayDocuments].

(** Reduce [events_since st st'] once the trace of [st'] is explicit. *)
Ltac since_trace :=
  unfold events_of, state_after, completion_of;
  state_simpl;
  try (erewrite events_since_app
         by (state_simpl; rewrite <- ?app_assoc; reflexivity)).

Ltac list_obs :=
  rewrite ?fetches_app, ?alerts_app, ?console_errors_app, ?pages_read_app;
  cbn [fetches alerts console_errors pages_read flat_map app].

Section Operations.
Context {num : Type} (W : World num).

Lemma quickAnalyze_fetches (docId : DocId) (st : State) :
  let t := sample_text W docId in
  let run := quickAnalyzeDocument W docId in
  if length (trim t) <? quick_threshold
  then fetches (events_of run st) = []
       /\ alerts (events_of run st) = [quick_alert]
       /\ completion_of run st = Normal tt
  else fetches (events_of run st) = [ReqInsights docId t].
Proof.
  cbv zeta.
  destruct (extractSample_run W docId)
    as (evs & k & Hrun & _ & _ & _ & Hf & Ha & _).
  rewrite <- (@insufficient_length quick_threshold) by (unfold quick_threshold; lia).
  unfold quickAnalyzeDocument, fetch_insights, events_of, state_after, completion_of.
  run_monad. rewrite Hrun.
  destruct (insufficient quick_threshold (sample_text W docId)).
  - since_trace. list_obs. rewrite Hf, Ha. auto.
  - destruct (api_insights W docId (sample_text W docId)) as [resp|e].
    + destruct (json resp) as [ins|e].
      * state_simpl.
        destruct (registry_get docId (documents_metadata st));
          since_trace; list_obs; now rewrite Hf.
      * since_trace. list_obs. now rewrite Hf.
    + since_trace. list_obs. now rewrite Hf.
Qed.

Lemma sufficient_truthy (n : nat) (t : jsstring) :
  insufficient n t = false -> truthy t = true.
Proof.
  unfold insufficient. intros H. apply orb_false_elim in H.
  destruct H as [H _]. now apply negb_false_iff in H.
Qed.

(** A run of [showRelatedSections] on a non-empty text: at most one
    request (none when the text cannot be encoded), no alert, no
    exception, no page read, and the insights panel is left as it was. *)
Lemma showRelated_run (docId : DocId) (txt : jsstring) (st : State) :
  truthy txt = true ->
  exists evs st',
    showRelatedSections W docId txt st = (Normal tt, st')
    /\ trace st' = trace st ++ evs
    /\ fetches evs = (if well_formed txt then [ReqRelated docId txt 5] else [])
    /\ alerts evs = []
    /\ documents_opened evs = [] /\ pages_read evs = []
    /\ insightsContent st' = insightsContent st
    /\ style_display st' insightsContainer = style_display st insightsContainer.
Proof.
  intros Ht. unfold showRelatedSections, fetch_related. rewrite Ht. cbn [negb].
  run_monad.
  destruct (well_formed txt).
  - destruct (api_related W docId txt 5) as [resp|e0].
    + destruct (json resp) as [related|e0].
      * destruct related as [[|sec l]|]; cbv beta iota.
        -- eexists _, _. split; [reflexivity|]. state_simpl.
           repeat split; reflexivity.
        -- destruct (render_cards W (sec :: l)) as [cards|e0];
             eexists _, _; (split; [reflexivity|]); state_simpl;
             rewrite <- ?app_assoc; repeat split; reflexivity.
        -- eexists _, _. split; [reflexivity|]. state_simpl.
           repeat split; reflexivity.
      * eexists _, _. split; [reflexivity|]. state_simpl.
        rewrite <- ?app_assoc. repeat split; reflexivity.
    + eexists _, _. split; [reflexivity|]. state_simpl.
      rewrite <- ?app_assoc. repeat split; reflexivity.
  - eexists _, _. split; [reflexivity|]. state_simpl.
    repeat split; reflexivity.
Qed.

Lemma displayInsights_trace (ins : InsightsResponse) (s : State) :
  trace (displayInsights ins s) = trace s.
Proof. unfold displayInsights. destruct (insights ins); reflexivity. Qed.

Lemma text_to_analyze_run (docId : DocId) (specificText : option jsstring) :
  exists evs,
    (forall st,
        match specificText with
        | Some t => if truthy t then ret t else extractTextFromPDF W docId
        | None => extractTextFromPDF W docId
        end st = (Normal (text_to_analyze W docId specificText), add_events evs st))
    /\ fetches evs = [] /\ alerts evs = [].
Proof.
  destruct (extractText_run W docId) as (evs & k & Hrun & _ & _ & _ & Hf & Ha & _).
  unfold text_to_analyze.
  destruct specificText as [t|]; [destruct (truthy t)|].
  - exists []. repeat split; auto. intros st. unfold ret. now rewrite add_events_nil.
  - exists evs. auto.
  - exists evs. auto.
Qed.

(** A related-sections answer that decodes to null or to an empty list
    shows the notice, whatever the status of the response. *)
Lemma showRelated_notice (docId : DocId) (txt : jsstring) (st : State)
  (response : Response (option (list (RelatedSection num))))
  (related : option (list (RelatedSection num))) :
  truthy txt = true ->
  well_formed txt = true ->
  api_related W docId txt 5 = Resolved response ->
  json response = Resolved related ->
  related = None \/ related = Some [] ->
  showRelatedSections W docId txt st
  = (Normal tt,
     set_display relatedSections DisplayBlock
       (set_relatedContent NoRelatedSections
          (add_events [EvFetch (ReqRelated docId txt 5)] st))).
Proof.
  intros Ht Hwf Hapi Hjson Hrel.
  unfold showRelatedSections, fetch_related. rewrite Ht, Hwf. cbn [negb].
  run_monad. rewrite Hapi, Hjson.
  destruct Hrel as [-> | ->]; reflexivity.
Qed.

(** Every branch of [analyzeDocument]. *)
Lemma analyze_run (docId : DocId) (specificText : option jsstring) (st : State) :
  let t := text_to_analyze W docId specificText in
  let run := analyzeDocument W docId specificText in
  if length (trim t) <? full_threshold
  then fetches (events_of run st) = []
       /\ alerts (events_of run st) = [full_alert]
       /\ completion_of run st = Normal tt
  else
    match api_insights W docId t with
    | Resolved response =>
        match json response with
        | Resolved ins =>
            fetches (events_of run st)
            = ReqInsights docId t
              :: (if well_formed t then [ReqRelated docId t 5] else [])
            /\ alerts (events_of run st) = []
            /\ completion_of run st = Normal tt
            /\ insightsContent (state_after run st)
               = insightsContent (displayInsights ins st)
            /\ style_display (state_after run st) insightsContainer = Some DisplayBlock
        | Rejected e =>
            fetches (events_of run st) = [ReqInsights docId t]
            /\ alerts (events_of run st) = [lit "Analysis failed: " ++ message e]
        end
    | Rejected e =>
        fetches (events_of run st) = [ReqInsights docId t]
        /\ alerts (events_of run st) = [lit "Analysis failed: " ++ message e]
    end.
Proof.
  cbv zeta.
  destruct (text_to_analyze_run docId specificText) as (evs & Hrun & Hf & Ha).
  rewrite <- (@insufficient_length full_threshold) by (unfold full_threshold; lia).
  unfold analyzeDocument, fetch_insights, events_of, state_after, completion_of.
  run_monad. rewrite Hrun.
  destruct (insufficient full_threshold (text_to_analyze W docId specificText)) eqn:Hins.
  - since_trace. list_obs. rewrite Hf, Ha. auto.
  - apply sufficient_truthy in Hins.
    destruct (api_insights W docId (text_to_analyze W docId specificText)) as [resp|e].
    + destruct (json resp) as [ins|e].
      * match goal with
        | |- context [showRelatedSections W docId _ ?s] =>
            destruct (@showRelated_run docId _ s Hins)
              as (evs' & st' & Hrel & Htr & Hf' & Ha' & _ & _ & Hic & Hsd)
        end.
        rewrite Hrel. state_simpl.
        change (events_since st (set_display loading DisplayNone st'))
          with (events_since st st').
        assert (Hsince : events_since st st'
                         = evs ++ [EvFetch (ReqInsights docId
                                              (text_to_analyze W docId specificText))]
                               ++ evs').
        { apply events_since_app. rewrite Htr.
          rewrite displayInsights_trace. state_simpl.
          rewrite <- !app_assoc. reflexivity. }
        rewrite Hsince. list_obs. rewrite Hf, Ha, Hf', Ha'.
        repeat split; auto.
        -- rewrite Hic. unfold displayInsights. destruct (insights ins); reflexivity.
        -- rewrite Hsd. unfold displayInsights. destruct (insights ins); reflexivity.
      * since_trace. list_obs. now rewrite Hf, Ha.
    + since_trace. list_obs. now rewrite Hf, Ha.
Qed.

(** With enough text, the insight request is the first request sent. *)
Lemma analyze_first_request (docId : DocId) (specificText : option jsstring)
  (st : State) :
  let t := text_to_analyze W docId specificText in
  (length (trim t) <? full_threshold) = false ->
  exists rest,
    fetches (events_of (analyzeDocument W docId specificText) st)
    = ReqInsights docId t :: rest.
Proof.
  cbv zeta. intros Hlen.
  pose proof (analyze_run docId specificText st) as H. cbv zeta in H.
  rewrite Hlen in H.
  destruct (api_insights W docId (text_to_analyze W docId specificText)) as [resp|e].
  - destruct (json resp) as [ins|e]; destruct H as (H & _); eauto.
  - destruct H as (H & _). eauto.
Qed.

Lemma events_since_refl (st : State) : events_since st st = [].
Proof. unfold events_since. apply skipn_all. Qed.

(** With no document open, [generatePodcast] returns at once. *)
Lemma podcast_no_document (st : State) :
  currentDocumentId st = None \/ currentDocumentId st = Some [] ->
  generatePodcast W st = (Normal tt, st).
Proof.
  unfold generatePodcast, bind, get, ret.
  intros [H|H]; rewrite H; reflexivity.
Qed.

(** Every branch of [generatePodcast] with a document open. *)
Lemma podcast_run (docId : DocId) (st : State) :
  currentDocumentId st = Some docId ->
  truthy docId = true ->
  let t := full_text W docId in
  let run := generatePodcast W in
  if length (trim t) <? podcast_threshold
  then fetches (events_of run st) = []
       /\ alerts (events_of run st) = [podcast_alert]
       /\ completion_of run st = Normal tt
       /\ currentPodcastText (state_after run st) = currentPodcastText st
  else fetches (events_of run st) = [ReqPodcast docId t]
       /\ (forall response podcast,
              api_podcast W docId t = Resolved response ->
              json response = Resolved podcast ->
              completion_of run st = Normal tt
              /\ alerts (events_of run st) = []
              /\ currentPodcastText (state_after run st)
                 = Some (resolve_script podcast t)
              /\ podcastContent (state_after run st)
                 = Some (escapeHtml (substring0 500 (resolve_script podcast t))
                         ++ ellipsis)).
Proof.
  intros Hcur Hid. cbv zeta.
  destruct (extractText_run W docId) as (evs & k & Hrun & _ & _ & _ & Hf & Ha & _).
  rewrite <- (@insufficient_length podcast_threshold) by (unfold podcast_threshold; lia).
  unfold generatePodcast, fetch_podcast, events_of, state_after, completion_of.
  run_monad. rewrite Hcur, Hid. cbn [negb]. rewrite Hrun.
  destruct (insufficient podcast_threshold (full_text W docId)).
  - since_trace. list_obs. rewrite Hf, Ha. auto.
  - destruct (api_podcast W docId (full_text W docId)) as [resp|e] eqn:Hapi.
    + destruct (json resp) as [podcast|e] eqn:Hjson.
      * since_trace. list_obs. rewrite Hf, Ha. split; [reflexivity|].
        intros r p Hr Hp.
        assert (r = resp) by congruence; subst r.
        assert (p = podcast) by congruence; subst p. auto.
      * since_trace. list_obs. rewrite Hf. split; [reflexivity|].
        intros r p Hr Hp.
        assert (r = resp) by congruence; subst r. congruence.
    + since_trace. list_obs. rewrite Hf. split; [reflexivity|]. discriminate.
Qed.

(** [deleteDocument] never writes the two session variables. *)
Lemma delete_session (docId : DocId) (st : State) :
  currentDocumentId (state_after (deleteDocument W docId) st) = currentDocumentId st
  /\ currentPodcastText (state_after (deleteDocument W docId) st)
     = currentPodcastText st.
Proof.
  unfold deleteDocument, loadDocuments, fetch_delete, fetch_documents, state_after.
  run_monad.
  destruct (confirm W delete_confirm); cbn [negb]; [|split; reflexivity].
  destruct (api_delete W docId) as [resp|e]; [|split; reflexivity].
  destruct (ok resp); [|split; reflexivity].
  destruct (api_documents W) as [r|e]; [|split; reflexivity].
  destruct (json r); split; reflexivity.
Qed.

End Operations.

(* ================================================================== *)
(** ** Whole-document extraction *)

(** Pages [p .. p+j-1] fit within 1000 characters and page [p+j] crosses
    the limit: the loop stops there. *)
Lemma sample_loop_truncates (pdf : PDFDocument) (items : nat -> list TextItem) (j : nat) :
  forall (r p : nat) (acc : jsstring) (st : State),
    (forall i, p <= i <= p + j -> page_items pdf i = Resolved (items i)) ->
    j < r ->
    length (acc ++ pages_text items p j) <= 1000 ->
    1000 < length (acc ++ pages_text items p (S j)) ->
    sample_loop pdf r p acc st =
    (Normal (substring0 1000 (acc ++ pages_text items p (S j)) ++ ellipsis),
     add_events (page_events p (S j)) st).
Proof.
  induction j as [|j IH]; intros r p acc st Hpages Hr Hfit Hcross.
  - destruct r as [|r]; [lia|].
    rewrite sample_loop_step, (Hpages p) by lia. cbv zeta.
    unfold pages_text in *. cbn [seq map concat] in *.
    rewrite app_nil_r in Hcross. apply Nat.ltb_lt in Hcross. rewrite Hcross.
    now rewrite app_nil_r.
  - destruct r as [|r]; [lia|].
    rewrite sample_loop_step, (Hpages p) by lia. cbv zeta.
    assert (Hsplit : forall n, pages_text items p (S n)
                     = (pageTextOf (items p) ++ blank_line) ++ pages_text items (S p) n).
    { intros n. reflexivity. }
    rewrite (Hsplit (S j)) in Hcross. rewrite (Hsplit j) in Hfit.
    assert (Hle : length (acc ++ pageTextOf (items p) ++ blank_line) <= 1000).
    { rewrite !length_app in *. lia. }
    apply Nat.ltb_ge in Hle. rewrite Hle.
    rewrite (IH r (S p)).
    + rewrite add_events_app. rewrite (Hsplit (S j)).
      rewrite <- !app_assoc. reflexivity.
    + intros i Hi. apply Hpages. lia.
    + lia.
    + rewrite <- !app_assoc in *. exact Hfit.
    + rewrite <- !app_assoc in *. exact Hcross.
Qed.

Section WholeDocument.
Context {num : Type} (W : World num) (docId : DocId).
Variable pdf : PDFDocument.
Variable items : nat -> list TextItem.
Hypothesis Hopen : getDocument W docId = Resolved pdf.

Lemma extractText_all (st : State) :
  (forall i, 1 <= i <= Nat.min (numPages pdf) 10 -> page_items pdf i = Resolved (items i)) ->
  extractTextFromPDF W docId st =
  (Normal (trim (pages_text items 1 (Nat.min (numPages pdf) 10))),
   add_events (EvGetDocument docId :: page_events 1 (Nat.min (numPages pdf) 10)) st).
Proof.
  intros Hpages.
  unfold extractTextFromPDF, extractTextFromPDF_try, try_catch.
  run_monad. rewrite Hopen. cbv zeta.
  rewrite (@full_loop_all pdf items) by (intros i Hi; apply Hpages; lia).
  rewrite add_events_app. reflexivity.
Qed.

Lemma extractSample_all (st : State) :
  (forall i, 1 <= i <= Nat.min (numPages pdf) 3 -> page_items pdf i = Resolved (items i)) ->
  length (pages_text items 1 (Nat.min (numPages pdf) 3)) <= 1000 ->
  extractSampleTextFromPDF W docId st =
  (Normal (trim (pages_text items 1 (Nat.min (numPages pdf) 3))),
   add_events (EvGetDocument docId :: page_events 1 (Nat.min (numPages pdf) 3)) st).
Proof.
  intros Hpages Hlen.
  unfold extractSampleTextFromPDF, extractSampleTextFromPDF_try, try_catch.
  run_monad. rewrite Hopen. cbv zeta.
  rewrite (@sample_loop_all pdf items) by
    (try (intros i Hi; apply Hpages; lia); exact Hlen).
  rewrite add_events_app. reflexivity.
Qed.

Lemma extractSample_truncates (j : nat) (st : State) :
  j < Nat.min (numPages pdf) 3 ->
  (forall i, 1 <= i <= S j -> page_items pdf i = Resolved (items i)) ->
  length (pages_text items 1 j) <= 1000 ->
  1000 < length (pages_text items 1 (S j)) ->
  extractSampleTextFromPDF W docId st =
  (Normal (trim (substring0 1000 (pages_text items 1 (S j)) ++ ellipsis)),
   add_events (EvGetDocument docId :: page_events 1 (S j)) st).
Proof.
  intros Hj Hpages Hfit Hcross.
  unfold extractSampleTextFromPDF, extractSampleTextFromPDF_try, try_catch.
  run_monad. rewrite Hopen. cbv zeta.
  rewrite (@sample_loop_truncates pdf items j) by
    (try (intros i Hi; apply Hpages; lia); assumption).
  rewrite add_events_app. reflexivity.
Qed.

End WholeDocument.

(* ================================================================== *)
(** ** Properties of the pipeline *)

(** C1.  Each operation compares the length of the trimmed text with its
    threshold before any request: below 30 (quick analysis), 50 (full
    analysis) or 100 (podcast) it alerts that the text is insufficient,
    returns normally and sends no request; at or above the threshold the
    first request it sends is its own, carrying the text.  The text is
    the one the extraction returns, from whatever state it is run. *)
Theorem threshold_before_request {num} (W : World num) (docId : DocId)
  (specificText : option jsstring) (st : State) :
  (let t := sample_text W docId in
   let run := quickAnalyzeDocument W docId in
   if length (trim t) <? 30
   then fetches (events_of run st) = []
        /\ alerts (events_of run st) = [quick_alert]
        /\ completion_of run st = Normal tt
   else fetches (events_of run st) = [ReqInsights docId t])
  /\ (let t := text_to_analyze W docId specificText in
      let run := analyzeDocument W docId specificText in
      if length (trim t) <? 50
      then fetches (events_of run st) = []
           /\ alerts (events_of run st) = [full_alert]
           /\ completion_of run st = Normal tt
      else exists rest, fetches (events_of run st) = ReqInsights docId t :: rest)
  /\ (currentDocumentId st = Some docId ->
      truthy docId = true ->
      let t := full_text W docId in
      let run := generatePodcast W in
      if length (trim t) <? 100
      then fetches (events_of run st) = []
           /\ alerts (events_of run st) = [podcast_alert]
           /\ completion_of run st = Normal tt
      else fetches (events_of run st) = [ReqPodcast docId t])
  /\ (forall s, completion_of (extractSampleTextFromPDF W docId) s
                = Normal (sample_text W docId))
  /\ (forall s, completion_of (extractTextFromPDF W docId) s
                = Normal (full_text W docId)).
Proof.
  split; [|split; [|split; [|split]]];
    [| | |intros s; destruct (extractSample_run W docId) as (evs & k & Hrun & _);
            unfold completion_of; now rewrite Hrun
         |intros s; destruct (extractText_run W docId) as (evs & k & Hrun & _);
            unfold completion_of; now rewrite Hrun].
  - exact (quickAnalyze_fetches W docId st).
  - pose proof (analyze_run W docId specificText st) as H. cbv zeta in *.
    change full_threshold with 50 in H.
    destruct (length (trim (text_to_analyze W docId specificText)) <? 50) eqn:Hlen;
      [exact H|].
    exact (analyze_first_request W docId specificText st Hlen).
  - intros Hcur Hid.
    pose proof (@podcast_run _ W docId st Hcur Hid) as H. cbv zeta in *.
    change podcast_threshold with 100 in H.
    destruct (length (trim (full_text W docId)) <? 100).
    + destruct H as (H1 & H2 & H3 & _). auto.
    + destruct H as (H & _). exact H.
Qed.

(** C2.  In sample mode, when the text of the pages read so far first
    exceeds 1000 characters, the accumulated text is cut to exactly its
    first 1000 characters, the ellipsis is appended and the page just read
    is the last one read; hence the returned text never has more than 1000
    characters plus the ellipsis. *)
Theorem sample_truncation {num} (W : World num) (docId : DocId) (st : State) :
  (forall pdf items j,
      getDocument W docId = Resolved pdf ->
      j < Nat.min (numPages pdf) 3 ->
      (forall i, 1 <= i <= S j -> page_items pdf i = Resolved (items i)) ->
      length (pages_text items 1 j) <= 1000 ->
      1000 < length (pages_text items 1 (S j)) ->
      completion_of (extractSampleTextFromPDF W docId) st
      = Normal (trim (firstn 1000 (pages_text items 1 (S j)) ++ ellipsis))
      /\ length (firstn 1000 (pages_text items 1 (S j))) = 1000
      /\ pages_read (events_of (extractSampleTextFromPDF W docId) st) = seq 1 (S j))
  /\ (exists t,
        completion_of (extractSampleTextFromPDF W docId) st = Normal t
        /\ length t <= 1000 + length ellipsis).
Proof.
  split.
  - intros pdf items j Hopen Hj Hpages Hfit Hcross.
    unfold completion_of, events_of, state_after.
    rewrite (@extractSample_truncates _ W docId pdf items Hopen j st Hj Hpages Hfit Hcross).
    cbn [fst snd]. split; [reflexivity|]. split.
    + rewrite length_firstn. lia.
    + erewrite events_since_app by reflexivity.
      rewrite pages_read_getDocument. apply pages_read_page_events.
  - destruct (extractSample_run W docId) as (evs & k & Hrun & _ & _ & _ & _ & _ & Hlen & _).
    exists (sample_text W docId). unfold completion_of. rewrite Hrun. auto.
Qed.

(** C3.  Sample mode reads pages 1, 2, ... up to at most min(pageCount, 3)
    and full mode up to at most min(pageCount, 10).  When every page is
    readable, full mode returns the trimmed concatenation, over pages 1 to
    min(pageCount, 10), of the page's fragments joined by one space and
    followed by the blank-line separator, whatever its length; sample mode
    returns the same over min(pageCount, 3) pages when that text has at
    most 1000 characters. *)
Theorem page_caps {num} (W : World num) (docId : DocId) (st : State) :
  (exists k,
      pages_read (events_of (extractSampleTextFromPDF W docId) st) = seq 1 k
      /\ k <= 3
      /\ forall pdf, getDocument W docId = Resolved pdf -> k <= Nat.min (numPages pdf) 3)
  /\ (exists k,
        pages_read (events_of (extractTextFromPDF W docId) st) = seq 1 k
        /\ k <= 10
        /\ forall pdf, getDocument W docId = Resolved pdf -> k <= Nat.min (numPages pdf) 10)
  /\ (forall pdf items,
        getDocument W docId = Resolved pdf ->
        (forall i, 1 <= i <= Nat.min (numPages pdf) 10 ->
                   page_items pdf i = Resolved (items i)) ->
        completion_of (extractTextFromPDF W docId) st
        = Normal (trim (concat (map (fun i => join (lit " ") (map str (items i)) ++ blank_line)
                                    (seq 1 (Nat.min (numPages pdf) 10)))))
        /\ pages_read (events_of (extractTextFromPDF W docId) st)
           = seq 1 (Nat.min (numPages pdf) 10))
  /\ (forall pdf items,
        getDocument W docId = Resolved pdf ->
        (forall i, 1 <= i <= Nat.min (numPages pdf) 3 ->
                   page_items pdf i = Resolved (items i)) ->
        length (pages_text items 1 (Nat.min (numPages pdf) 3)) <= 1000 ->
        completion_of (extractSampleTextFromPDF W docId) st
        = Normal (trim (concat (map (fun i => join (lit " ") (map str (items i)) ++ blank_line)
                                    (seq 1 (Nat.min (numPages pdf) 3)))))
        /\ pages_read (events_of (extractSampleTextFromPDF W docId) st)
           = seq 1 (Nat.min (numPages pdf) 3)).
Proof.
  split; [|split; [|split]].
  - destruct (extractSample_run W docId) as (evs & k & Hrun & Hp & Hk3 & Hk & _).
    exists k. unfold events_of, state_after. rewrite Hrun. cbn [snd].
    erewrite events_since_app by reflexivity. auto.
  - destruct (extractText_run W docId) as (evs & k & Hrun & Hp & Hk10 & Hk & _).
    exists k. unfold events_of, state_after. rewrite Hrun. cbn [snd].
    erewrite events_since_app by reflexivity. auto.
  - intros pdf items Hopen Hpages.
    unfold completion_of, events_of, state_after.
    rewrite (@extractText_all _ W docId pdf items Hopen st Hpages). cbn [fst snd].
    split; [reflexivity|].
    erewrite events_since_app by reflexivity.
    rewrite pages_read_getDocument. apply pages_read_page_events.
  - intros pdf items Hopen Hpages Hlen.
    unfold completion_of, events_of, state_after.
    rewrite (@extractSample_all _ W docId pdf items Hopen st Hpages Hlen). cbn [fst snd].
    split; [reflexivity|].
    erewrite events_since_app by reflexivity.
    rewrite pages_read_getDocument. apply pages_read_page_events.
Qed.

(** C4, as the script behaves where it departs from it.  [analyzeDocument]
    and [showRelatedSections] never read the [ok] flag that [uploadFile]
    and [deleteDocument] test.  Any insight response that arrives and
    decodes, a refused one included, is rendered and followed by the
    related-sections request (same document, same text, result count 5);
    and a related-sections answer that decodes to null, also a refused
    one, is shown as the no-result notice. *)
Theorem related_sent_whatever_status {num} (W : World num) (docId : DocId)
  (specificText : option jsstring) (st : State)
  (response : Response InsightsResponse) (ins : InsightsResponse)
  (answer : Response (option (list (RelatedSection num)))) :
  let t := text_to_analyze W docId specificText in
  let run := analyzeDocument W docId specificText in
  full_threshold <= length (trim t) ->
  well_formed t = true ->
  api_insights W docId t = Resolved response ->
  json response = Resolved ins ->
  (fetches (events_of run st) = [ReqInsights docId t; ReqRelated docId t 5]
   /\ alerts (events_of run st) = []
   /\ completion_of run st = Normal tt
   /\ insightsContent (state_after run st) = insightsContent (displayInsights ins st))
  /\ (api_related W docId t 5 = Resolved answer ->
      json answer = Resolved None ->
      relatedContent (state_after run st) = Some NoRelatedSections
      /\ style_display (state_after run st) relatedSections = Some DisplayBlock).
Proof.
  cbv zeta. intros Hlen Hwf Hapi Hjson.
  pose proof (analyze_run W docId specificText st) as H. cbv zeta in H.
  apply Nat.ltb_ge in Hlen. rewrite Hlen, Hapi, Hjson, Hwf in H.
  destruct H as (Hf & Ha & Hc & Hic & _).
  split; [auto|].
  intros Hrel Hnull.
  assert (Hins : insufficient full_threshold (text_to_analyze W docId specificText) = false).
  { rewrite insufficient_length by (unfold full_threshold; lia). exact Hlen. }
  destruct (text_to_analyze_run W docId specificText) as (evs & Hrun & _).
  unfold analyzeDocument, fetch_insights, state_after.
  run_monad. rewrite Hrun, Hins, Hapi, Hjson.
  erewrite showRelated_notice by eauto using sufficient_truthy.
  split; reflexivity.
Qed.

(** C5, as the script renders.  [displayInsights] shows a single notice and
    none of the four lists when the response has no [insights] object;
    when it has one, all four lists are shown, a missing field as its
    one-element placeholder and a provided field with its values read back
    unchanged.  [showQuickInsights] shows two lists only, key insights and
    did-you-know, under the same placeholder rule, and does not depend on
    the other two fields. *)
Theorem insight_rendering (ins : InsightsResponse) (docTitle : jsstring) (st : State) :
  (insights ins = None ->
     insightsContent (displayInsights ins st) = Some NoInsightsGenerated)
  /\ (forall b, insights ins = Some b ->
        exists ki dyk cp cn,
          insightsContent (displayInsights ins st) = Some (InsightSections ki dyk cp cn)
          /\ rendered_field (key_insights b) no_key_insights ki
          /\ rendered_field (did_you_know b) no_facts dyk
          /\ rendered_field (counterpoints b) no_counterpoints cp
          /\ rendered_field (connections b) no_connections cn)
  /\ (exists m,
        modals (showQuickInsights ins docTitle st) = modals st ++ [m]
        /\ rendered_field (optional_field ins key_insights) no_key_insights
                          (modal_keyInsights m)
        /\ rendered_field (optional_field ins did_you_know) no_facts
                          (modal_quickFacts m))
  /\ (forall ins',
        optional_field ins' key_insights = optional_field ins key_insights ->
        optional_field ins' did_you_know = optional_field ins did_you_know ->
        showQuickInsights ins' docTitle st = showQuickInsights ins docTitle st).
Proof.
  assert (Hfield : forall field placeholder,
             escapeHtml placeholder = placeholder ->
             rendered_field field placeholder
               (map escapeHtml (or_default field placeholder))).
  { intros [values|] placeholder Hp; unfold rendered_field, or_default.
    - apply map_html_text_escapeHtml.
    - cbn [map]. now rewrite Hp. }
  split; [|split; [|split]].
  - intros Hnone. unfold displayInsights. rewrite Hnone. reflexivity.
  - intros b Hb. unfold displayInsights. rewrite Hb.
    do 4 eexists. split; [reflexivity|].
    repeat split; apply Hfield; reflexivity.
  - eexists. split; [reflexivity|].
    split; apply Hfield; reflexivity.
  - intros ins' H1 H2. unfold showQuickInsights. now rewrite H1, H2.
Qed.


(** C7.  The narration script is the response's [script] when that is a
    non-empty string, otherwise its [text_content] when that is a non-empty
    string, otherwise the extracted text; [generatePodcast] stores exactly
    this value. *)
Theorem podcast_script_fallback {num} (W : World num) (docId : DocId) (st : State)
  (podcast : PodcastResponse) (pdfText : jsstring) :
  (forall a, script podcast = Some a -> a <> [] ->
             resolve_script podcast pdfText = a)
  /\ (forall b, script podcast = None \/ script podcast = Some [] ->
                text_content podcast = Some b -> b <> [] ->
                resolve_script podcast pdfText = b)
  /\ (script podcast = None \/ script podcast = Some [] ->
      text_content podcast = None \/ text_content podcast = Some [] ->
      resolve_script podcast pdfText = pdfText)
  /\ (forall response,
        currentDocumentId st = Some docId ->
        truthy docId = true ->
        podcast_threshold <= length (trim (full_text W docId)) ->
        api_podcast W docId (full_text W docId) = Resolved response ->
        json response = Resolved podcast ->
        currentPodcastText (state_after (generatePodcast W) st)
        = Some (resolve_script podcast (full_text W docId))).
Proof.
  unfold resolve_script, or_else, opt_string.
  split; [|split; [|split]].
  - intros a -> Ha. destruct a; [congruence|reflexivity].
  - intros b [-> | ->] -> Hb; (destruct b; [congruence|reflexivity]).
  - intros [-> | ->] [-> | ->]; reflexivity.
  - intros resp Hcur Hid Hlen Hapi Hjson.
    pose proof (@podcast_run _ W docId st Hcur Hid) as H. cbv zeta in H.
    apply Nat.ltb_ge in Hlen. rewrite Hlen in H.
    destruct H as (_ & H). destruct (H resp podcast Hapi Hjson) as (_ & _ & Ht & _).
    exact Ht.
Qed.

(** C8, as the script behaves.  [viewDocument] makes the given document the
    open one and leaves the stored narration as it was; [goBack] clears the
    open document and leaves the stored narration as it was;
    [deleteDocument] changes neither.  One document at most is open:
    opening another replaces it. *)
Theorem session_transitions {num} (W : World num) (docId other : DocId) (st : State) :
  currentDocumentId (viewDocument docId st) = Some docId
  /\ currentPodcastText (viewDocument docId st) = currentPodcastText st
  /\ currentDocumentId (goBack st) = None
  /\ currentPodcastText (goBack st) = currentPodcastText st
  /\ currentDocumentId (state_after (deleteDocument W docId) st) = currentDocumentId st
  /\ currentPodcastText (state_after (deleteDocument W docId) st) = currentPodcastText st
  /\ currentDocumentId (viewDocument other (viewDocument docId st)) = Some other.
Proof.
  assert (Hview : forall d s,
             currentDocumentId (viewDocument d s) = Some d
             /\ currentPodcastText (viewDocument d s) = currentPodcastText s).
  { intros d s. unfold viewDocument. cbv zeta. state_simpl.
    destruct (member_truthy (registry_get d (documents_metadata s)));
      split; reflexivity. }
  destruct (delete_session W docId st) as [Hd1 Hd2].
  repeat split; try apply Hview; auto.
Qed.

(** C9, where the script departs from it.  The card template escapes the
    preview but writes [section.text] as it is into the [onclick]
    attribute.  For the section text made of a double quote followed by
    [><!--] the markup assigned to the panel closes the attribute and the
    tag right after [highlightSection('] and opens a comment; no comment
    end occurs anywhere after it, although the paragraph with the escaped
    preview is part of the string written. *)
Theorem onclick_text_unescaped :
  exists rest,
    relatedContent
      (state_after (showRelatedSections MoreExamples.W_related_injection
                      Examples.doc7 (lit "profit")) initial_state)
    = Some (RelatedMarkup
              (nl ++ indent 16
               ++ lit "<div class=" ++ dq ++ lit "related-card" ++ dq
               ++ lit " onclick=" ++ dq ++ lit "highlightSection('"
               ++ dq ++ lit "><!--" ++ rest))
    /\ occurs (lit "-->") rest = false
    /\ occurs (preview_markup MoreExamples.injection_text) rest = true
    /\ html_text (escapeHtml (substring0 100 MoreExamples.injection_text) ++ lit "...")
       = MoreExamples.injection_text ++ lit "...".
Proof.
  eexists. split; [vm_compute; reflexivity|].
  split; [vm_compute; reflexivity|].
  split; [vm_compute; reflexivity|].
  vm_compute. reflexivity.
Qed.

(** C10.  The sample fallback sentence has 45 characters and the full one
    77.  After a failed extraction, quick analysis and full analysis still
    send their insight request with the fallback sentence as text, and
    the podcast operation alerts that the text is insufficient and sends
    no request. *)
Theorem fallback_divergence {num} (W : World num) (docId : DocId) (st : State) :
  length sample_fallback = 45
  /\ length full_fallback = 77
  /\ (sample_extraction_fails W docId ->
      fetches (events_of (quickAnalyzeDocument W docId) st)
      = [ReqInsights docId sample_fallback])
  /\ (full_extraction_fails W docId ->
      exists rest,
        fetches (events_of (analyzeDocument W docId None) st)
        = ReqInsights docId full_fallback :: rest)
  /\ (full_extraction_fails W docId ->
      currentDocumentId st = Some docId ->
      fetches (events_of (generatePodcast W) st) = []
      /\ (truthy docId = true ->
          alerts (events_of (generatePodcast W) st) = [podcast_alert])).
Proof.
  split; [reflexivity|]. split; [reflexivity|]. split; [|split].
  - intros Hfail.
    destruct (extractSample_run W docId) as (_ & _ & _ & _ & _ & _ & _ & _ & _ & Hfb).
    pose proof (quickAnalyze_fetches W docId st) as H. cbv zeta in H.
    rewrite (Hfb Hfail) in H. exact H.
  - intros Hfail.
    destruct (extractText_run W docId) as (_ & _ & _ & _ & _ & _ & _ & _ & Hfb).
    destruct (analyze_first_request W docId None st) as [rest H].
    + unfold text_to_analyze. rewrite (Hfb Hfail). reflexivity.
    + exists rest. unfold text_to_analyze in H. rewrite (Hfb Hfail) in H. exact H.
  - intros Hfail Hcur.
    destruct (extractText_run W docId) as (_ & _ & _ & _ & _ & _ & _ & _ & Hfb).
    destruct (truthy docId) eqn:Hid.
    + pose proof (@podcast_run _ W docId st Hcur Hid) as H. cbv zeta in H.
      rewrite (Hfb Hfail) in H. destruct H as (H1 & H2 & _). auto.
    + split; [|discriminate].
      destruct docId; [|discriminate].
      unfold events_of, state_after.
      rewrite podcast_no_document by (now right).
      cbn [snd]. rewrite events_since_refl. reflexivity.
Qed.

(* ================================================================== *)
(** ** The properties on the sample documents *)

Import Examples.

(** With [doc-7] open and five long pages, the podcast request is sent. *)
Lemma threshold_before_request_witness :
  currentDocumentId st_open = Some doc7
  /\ truthy doc7 = true
  /\ fetches (events_of (generatePodcast W_long) st_open)
     = [ReqPodcast doc7 (full_text W_long doc7)].
Proof.
  split; [reflexivity|]. split; [reflexivity|].
  destruct (threshold_before_request W_long doc7 None st_open) as (_ & _ & H & _).
  specialize (H eq_refl eq_refl). cbv zeta in H.
  assert (Hlong : (length (trim (full_text W_long doc7)) <? 100) = false)
    by (vm_compute; reflexivity).
  rewrite Hlong in H. exact H.
Defined.

(** The first page of the long document already crosses the limit: one
    page is read and the sample is cut. *)
Lemma sample_truncation_witness :
  getDocument W_long doc7 = Resolved pdf_long
  /\ 1000 < length (pages_text (fun _ => long_page) 1 1)
  /\ completion_of (extractSampleTextFromPDF W_long doc7) initial_state
     = Normal (trim (firstn 1000 (pages_text (fun _ => long_page) 1 1) ++ ellipsis))
  /\ pages_read (events_of (extractSampleTextFromPDF W_long doc7) initial_state) = [1].
Proof.
  assert (Hcross : 1000 < length (pages_text (fun _ => long_page) 1 1))
    by (vm_compute; lia).
  split; [reflexivity|]. split; [exact Hcross|].
  destruct (sample_truncation W_long doc7 initial_state) as (H & _).
  destruct (H pdf_long (fun _ => long_page) 0) as (Hc & _ & Hp).
  - reflexivity.
  - vm_compute. lia.
  - intros i _. reflexivity.
  - simpl. lia.
  - exact Hcross.
  - split; [exact Hc|exact Hp].
Defined.

(** Full mode reads all five pages of the long document and keeps every
    character of them. *)
Lemma page_caps_witness :
  getDocument W_long doc7 = Resolved pdf_long
  /\ pages_read (events_of (extractTextFromPDF W_long doc7) initial_state)
     = seq 1 (Nat.min (numPages pdf_long) 10)
  /\ pages_read (events_of (extractSampleTextFromPDF W_short doc7) initial_state)
     = seq 1 (Nat.min (numPages pdf_short) 3).
Proof.
  split; [reflexivity|].
  destruct (page_caps W_long doc7 initial_state) as (_ & _ & Hfull & _).
  destruct (page_caps W_short doc7 initial_state) as (_ & _ & _ & Hsample).
  split.
  - apply (Hfull pdf_long (fun _ => long_page)).
    + reflexivity.
    + intros i _. reflexivity.
  - apply (Hsample pdf_short (fun _ => short_page)).
    + reflexivity.
    + intros i _. reflexivity.
    + vm_compute. lia.
Defined.

(** A refused insight request and a refused related-sections request, both
    with a body that decodes: both requests are sent, the notices are
    shown, and nothing is alerted or logged. *)
Lemma related_sent_whatever_status_witness :
  ok (mkResponse false (Resolved (mkInsights None))) = false
  /\ fetches (events_of (analyzeDocument MoreExamples.W_status_500 doc7 None) initial_state)
     = [ReqInsights doc7 (full_text MoreExamples.W_status_500 doc7);
        ReqRelated doc7 (full_text MoreExamples.W_status_500 doc7) 5]
  /\ insightsContent
       (state_after (analyzeDocument MoreExamples.W_status_500 doc7 None) initial_state)
     = Some NoInsightsGenerated
  /\ relatedContent
       (state_after (analyzeDocument MoreExamples.W_status_500 doc7 None) initial_state)
     = Some NoRelatedSections
  /\ alerts (events_of (analyzeDocument MoreExamples.W_status_500 doc7 None) initial_state)
     = []
  /\ console_errors
       (events_of (analyzeDocument MoreExamples.W_status_500 doc7 None) initial_state)
     = [].
Proof.
  split; [reflexivity|].
  destruct (@related_sent_whatever_status _ MoreExamples.W_status_500 doc7 None
              initial_state
              (mkResponse false (Resolved (mkInsights None))) (mkInsights None)
              (mkResponse false (Resolved None)))
    as ((Hf & Ha & _ & Hi) & Hr).
  - vm_compute. lia.
  - vm_compute. reflexivity.
  - reflexivity.
  - reflexivity.
  - destruct (Hr eq_refl eq_refl) as (Hrc & _).
    split; [exact Hf|]. split; [exact Hi|]. split; [exact Hrc|]. split; [exact Ha|].
    vm_compute. reflexivity.
Defined.

(** A bundle without [connections]: three lists as sent, one placeholder. *)
Lemma insight_rendering_witness :
  insightsContent
    (displayInsights (mkInsights (Some bundle_without_connections)) initial_state)
  = Some (InsightSections [lit "Costs fell"; lit "R&amp;D grew"]
                          [lit "Founded in 1982"]
                          []
                          [lit "No connections available"])
  /\ insightsContent (displayInsights (mkInsights None) initial_state)
     = Some NoInsightsGenerated.
Proof.
  destruct (insight_rendering (mkInsights (Some bundle_without_connections)) []
              initial_state) as (_ & H & _).
  destruct (H bundle_without_connections eq_refl) as (ki & dyk & cp & cn & Heq & _).
  destruct (insight_rendering (mkInsights None) [] initial_state) as (Hnone & _).
  split; [|exact (Hnone eq_refl)].
  rewrite Heq. vm_compute in Heq. injection Heq as <- <- <- <-. reflexivity.
Defined.


(** The three cases of the script fallback, and the stored narration. *)
Lemma podcast_script_fallback_witness :
  resolve_script podcast_A (lit "extracted") = lit "A"
  /\ resolve_script podcast_B (lit "extracted") = lit "B"
  /\ resolve_script (mkPodcast None None) (lit "extracted") = lit "extracted"
  /\ currentPodcastText (state_after (generatePodcast W_long) st_open)
     = Some (resolve_script podcast_A (full_text W_long doc7)).
Proof.
  destruct (podcast_script_fallback W_long doc7 st_open podcast_A (lit "extracted"))
    as (HA & _ & _ & Hrun).
  destruct (podcast_script_fallback W_long doc7 st_open podcast_B (lit "extracted"))
    as (_ & HB & _ & _).
  destruct (podcast_script_fallback W_long doc7 st_open (mkPodcast None None)
              (lit "extracted")) as (_ & _ & HN & _).
  split; [|split; [|split]].
  - apply HA; [reflexivity|discriminate].
  - apply HB; [left; reflexivity|reflexivity|discriminate].
  - apply HN; left; reflexivity.
  - apply (Hrun (mkResponse true (Resolved podcast_A))).
    + reflexivity.
    + reflexivity.
    + vm_compute. lia.
    + reflexivity.
    + reflexivity.
Defined.

(** After a failed extraction only the podcast operation stops. *)
Lemma fallback_divergence_witness :
  sample_extraction_fails W_broken doc7
  /\ full_extraction_fails W_broken doc7
  /\ fetches (events_of (quickAnalyzeDocument W_broken doc7) st_open)
     = [ReqInsights doc7 sample_fallback]
  /\ fetches (events_of (generatePodcast W_broken) st_open) = []
  /\ alerts (events_of (generatePodcast W_broken) st_open) = [podcast_alert].
Proof.
  assert (Hs : sample_extraction_fails W_broken doc7)
    by (exists network_down, initial_state; reflexivity).
  assert (Hf : full_extraction_fails W_broken doc7)
    by (exists network_down, initial_state; reflexivity).
  split; [exact Hs|]. split; [exact Hf|].
  destruct (fallback_divergence W_broken doc7 st_open) as (_ & _ & Hq & _ & Hp).
  destruct (Hp Hf eq_refl) as (Hp1 & Hp2).
  split; [exact (Hq Hs)|]. split; [exact Hp1|exact (Hp2 eq_refl)].
Defined.

(* ================================================================== *)
(** ** Where the script departs from the stated behaviour *)

(** C5 as stated fails: a response without an [insights] object renders
    the notice and none of the four lists. *)
Lemma insights_absent_shows_no_field :
  insightsContent (displayInsights (mkInsights None) initial_state)
  = Some NoInsightsGenerated
  /\ shows_four_fields (insightsContent (displayInsights (mkInsights None) initial_state))
     = false.
Proof. split; reflexivity. Qed.

(** C8 as stated fails: opening [doc-7] keeps the narration stored before,
    and deleting [doc-7] while it is open leaves it open. *)
Lemma open_keeps_old_narration :
  currentPodcastText
    (viewDocument doc7 (set_currentPodcastText (Some (lit "old narration")) initial_state))
  = Some (lit "old narration")
  /\ currentDocumentId (state_after (deleteDocument W_long doc7) st_open) = Some doc7.
Proof. split; reflexivity. Qed.

(* ================================================================== *)
(** ** Further properties: markup *)

Lemma escape_char_no_angle (c x : char16) :
  In x (escape_char c) -> x <> 60%N /\ x <> 62%N.
Proof.
  unfold escape_char.
  destruct (c =? 38)%N eqn:E38.
  { cbn. intros H. repeat (destruct H as [<-|H]; [split; discriminate|]). destruct H. }
  destruct (c =? 60)%N eqn:E60.
  { cbn. intros H. repeat (destruct H as [<-|H]; [split; discriminate|]). destruct H. }
  destruct (c =? 62)%N eqn:E62.
  { cbn. intros H. repeat (destruct H as [<-|H]; [split; discriminate|]). destruct H. }
  destruct (c =? 160)%N eqn:E160.
  { cbn. intros H. repeat (destruct H as [<-|H]; [split; discriminate|]). destruct H. }
  intros [<-|[]]. split; apply N.eqb_neq; assumption.
Qed.

(** X1.  Whatever the text, the markup [escapeHtml] returns holds neither
    a less-than nor a greater-than sign, so it cannot open or close a tag. *)
Theorem escapeHtml_no_tags (s : jsstring) :
  ~ In 60%N (escapeHtml s) /\ ~ In 62%N (escapeHtml s).
Proof.
  assert (H : forall x, In x (escapeHtml s) -> x <> 60%N /\ x <> 62%N).
  { intros x. unfold escapeHtml. destruct (negb (truthy s)); [intros []|].
    rewrite in_flat_map. intros (c & _ & Hx). eapply escape_char_no_angle; eauto. }
  split; intros Hin; apply H in Hin; destruct Hin; congruence.
Qed.

(** X2.  Escaping loses nothing: the markup reads back as the text it was
    made from, and two different texts never get the same markup. *)
Theorem escapeHtml_faithful (a b : jsstring) :
  html_text (escapeHtml a) = a
  /\ (escapeHtml a = escapeHtml b -> a = b).
Proof.
  split; [apply html_text_escapeHtml|].
  intros H. rewrite <- (html_text_escapeHtml a), <- (html_text_escapeHtml b).
  now rewrite H.
Qed.

(* ================================================================== *)
(** ** Further properties: the document registry *)

Lemma jsstring_eqb_eq (a b : jsstring) : jsstring_eqb a b = true <-> a = b.
Proof.
  revert b. induction a as [|x a IH]; intros [|y b]; cbn; split;
    try discriminate; try reflexivity.
  - intros H. apply andb_true_iff in H. destruct H as [Hx Hab].
    apply N.eqb_eq in Hx. apply IH in Hab. congruence.
  - intros H. injection H as -> ->. apply andb_true_iff. split.
    + apply N.eqb_refl.
    + now apply IH.
Qed.

Lemma jsstring_eqb_refl (a : jsstring) : jsstring_eqb a a = true.
Proof. now apply jsstring_eqb_eq. Qed.

Lemma jsstring_eqb_sym (a b : jsstring) : jsstring_eqb a b = jsstring_eqb b a.
Proof.
  destruct (jsstring_eqb a b) eqn:E1, (jsstring_eqb b a) eqn:E2; try reflexivity.
  - apply jsstring_eqb_eq in E1. subst. now rewrite jsstring_eqb_refl in E2.
  - apply jsstring_eqb_eq in E2. subst. now rewrite jsstring_eqb_refl in E1.
Qed.

Lemma lookup_insert (k k' : DocId) (v : DocumentMetadata)
  (m : list (DocId * DocumentMetadata)) :
  own_entry k' (metadata_insert k v m)
  = if jsstring_eqb k k' then Some v else own_entry k' m.
Proof.
  induction m as [|[k0 v0] m IH]; cbn.
  - reflexivity.
  - destruct (jsstring_eqb k0 k) eqn:E0; cbn.
    + apply jsstring_eqb_eq in E0. subst k0.
      destruct (jsstring_eqb k k'); reflexivity.
    + destruct (jsstring_eqb k0 k') eqn:E1.
      * apply jsstring_eqb_eq in E1. subst k0.
        rewrite jsstring_eqb_sym, E0. reflexivity.
      * exact IH.
Qed.

Lemma registry_of_snoc (docs : list DocumentMetadata) (d : DocumentMetadata) :
  registry_of (docs ++ [d]) = metadata_insert (id d) d (registry_of docs).
Proof. unfold registry_of. now rewrite fold_left_app. Qed.

Lemma registry_lookup (docs : list DocumentMetadata) (docId : DocId) :
  own_entry docId (registry_of docs) = last_listed docId docs.
Proof.
  induction docs as [|d docs IH] using rev_ind.
  - reflexivity.
  - rewrite registry_of_snoc, lookup_insert.
    unfold last_listed. rewrite rev_app_distr. cbn [rev app find].
    destruct (jsstring_eqb (id d) docId); [reflexivity|exact IH].
Qed.

Lemma last_listed_none (docs : list DocumentMetadata) (docId : DocId) :
  (forall d, In d docs -> id d <> docId) -> last_listed docId docs = None.
Proof.
  intros Hnone. unfold last_listed.
  destruct (find (fun doc => jsstring_eqb (id doc) docId) (rev docs)) as [d|] eqn:Hf;
    [|reflexivity].
  apply find_some in Hf. destruct Hf as [Hin Hid].
  apply jsstring_eqb_eq in Hid. apply in_rev in Hin.
  exfalso. exact (Hnone d Hin Hid).
Qed.

Lemma registry_get_listed (docs : list DocumentMetadata) (docId : DocId)
  (d : DocumentMetadata) :
  last_listed docId docs = Some d ->
  registry_get docId (registry_of docs) = MemberDocument d.
Proof. intros H. unfold registry_get. now rewrite registry_lookup, H. Qed.

Lemma document_field_not_document (p : DocumentMetadata) (k : jsstring) (v : Member)
  (d : DocumentMetadata) :
  document_field p k = Some v -> v <> MemberDocument d.
Proof.
  unfold document_field.
  repeat match goal with
         | |- context [if ?b then _ else _] => destruct b
         end;
    intros H; try discriminate; injection H as <-; try discriminate.
  destruct (filename p); discriminate.
Qed.

Lemma registry_get_document (m : list (DocId * DocumentMetadata)) (k : DocId)
  (d : DocumentMetadata) :
  registry_get k m = MemberDocument d -> own_entry k m = Some d.
Proof.
  unfold registry_get, object_prototype_member.
  destruct (own_entry k m) as [d0|]; [congruence|].
  destruct (jsstring_eqb k proto_key); [discriminate|].
  destruct (own_entry proto_key m) as [p|].
  - destruct (document_field p k) as [v|] eqn:Hv.
    + intros ->. exfalso. eapply document_field_not_document; eauto.
    + destruct (existsb _ _); discriminate.
  - destruct (existsb _ _); discriminate.
Qed.

Lemma registry_get_unlisted (m : list (DocId * DocumentMetadata)) (k : DocId) :
  own_entry k m = None ->
  inherited_name k = false ->
  registry_get k m = MemberNullish.
Proof.
  intros Hown Hname. unfold inherited_name in Hname.
  apply orb_false_elim in Hname. destruct Hname as [Hname Hfields].
  apply orb_false_elim in Hname. destruct Hname as [Hproto Hnames].
  cbn [existsb] in Hfields.
  repeat (apply orb_false_elim in Hfields; destruct Hfields as [? Hfields]).
  unfold registry_get, object_prototype_member, document_field.
  rewrite Hown, Hproto, Hnames.
  destruct (own_entry proto_key m); [|reflexivity].
  repeat match goal with
         | H : jsstring_eqb k _ = false |- _ => rewrite H; clear H
         end.
  reflexivity.
Qed.

Lemma registry_get_builtin (m : list (DocId * DocumentMetadata)) (k : DocId) :
  own_entry k m = None ->
  In k object_prototype_names ->
  registry_get k m = MemberBuiltin.
Proof.
  intros Hown Hin. unfold registry_get. rewrite Hown.
  cbn [object_prototype_names In] in Hin.
  repeat (destruct Hin as [<-|Hin];
          [destruct (own_entry proto_key m); reflexivity|]).
  destruct Hin.
Qed.

(** X3.  Indexing the registry built from a listing.  A listed id gives
    the last listed document with that id, and a document that is returned
    carries the id asked for and comes from the listing.  An id that is not
    listed gives undefined only when it names nothing inherited; a name of
    [Object.prototype], such as [constructor], is found although no
    document has it. *)
Theorem registry_round_trip (docs : list DocumentMetadata) (docId : DocId) :
  (forall d, last_listed docId docs = Some d ->
     registry_get docId (registry_of docs) = MemberDocument d)
  /\ (forall d, In d docs ->
        exists d', registry_get (id d) (registry_of docs) = MemberDocument d'
                   /\ id d' = id d /\ In d' docs)
  /\ (forall d, registry_get docId (registry_of docs) = MemberDocument d ->
        id d = docId /\ In d docs)
  /\ ((forall d, In d docs -> id d <> docId) ->
      inherited_name docId = false ->
      registry_get docId (registry_of docs) = MemberNullish)
  /\ ((forall d, In d docs -> id d <> docId) ->
      In docId object_prototype_names ->
      registry_get docId (registry_of docs) = MemberBuiltin).
Proof.
  assert (Hfound : forall k d, last_listed k docs = Some d -> id d = k /\ In d docs).
  { intros k d Hf. unfold last_listed in Hf.
    apply find_some in Hf. destruct Hf as [Hin Hid]. split.
    - now apply jsstring_eqb_eq.
    - now apply in_rev. }
  split; [|split; [|split; [|split]]].
  - intros d. apply registry_get_listed.
  - intros d Hin.
    destruct (last_listed (id d) docs) as [d'|] eqn:Hf.
    + exists d'. split; [now apply registry_get_listed|]. now apply Hfound.
    + exfalso. unfold last_listed in Hf. apply in_rev in Hin.
      pose proof (find_none _ _ Hf d Hin) as Hn. cbv beta in Hn.
      now rewrite jsstring_eqb_refl in Hn.
  - intros d Hget. apply registry_get_document in Hget.
    rewrite registry_lookup in Hget. now apply Hfound.
  - intros Hnone Hname. apply registry_get_unlisted; [|exact Hname].
    rewrite registry_lookup. now apply last_listed_none.
  - intros Hnone Hin. apply registry_get_builtin; [|exact Hin].
    rewrite registry_lookup. now apply last_listed_none.
Qed.

Section Registry.
Context {num : Type} (W : World num).


(** X5.  A listing that does not arrive, or does not decode, changes
    neither the registry nor the grid: the error goes to the console and
    the call still completes normally. *)
Theorem loadDocuments_failure_keeps (st : State) (e : JSError) :
  (api_documents W = Rejected e
   \/ exists response, api_documents W = Resolved response /\ json response = Rejected e) ->
  completion_of (loadDocuments W) st = Normal tt
  /\ events_of (loadDocuments W) st
     = [EvFetch ReqDocuments; EvConsoleError (lit "Failed to load documents:") e]
  /\ documents_metadata (state_after (loadDocuments W) st) = documents_metadata st
  /\ documentsGrid (state_after (loadDocuments W) st) = documentsGrid st.
Proof.
  intros Hfail.
  unfold loadDocuments, fetch_documents, completion_of, events_of, state_after.
  run_monad.
  destruct Hfail as [Hapi|(response & Hapi & Hjson)]; rewrite Hapi; [|rewrite Hjson];
    cbn [fst snd]; (split; [reflexivity|]); (split; [|split; reflexivity]);
    erewrite events_since_app by (state_simpl; rewrite <- ?app_assoc; reflexivity);
    reflexivity.
Qed.

Lemma delete_declined (docId : DocId) (st : State) :
  confirm W delete_confirm = false ->
  deleteDocument W docId st = (Normal tt, add_events [EvConfirm delete_confirm] st).
Proof.
  intros Hno. unfold deleteDocument. run_monad. rewrite Hno. reflexivity.
Qed.

Lemma delete_failure_run (docId : DocId) (st : State) (e : JSError) :
  confirm W delete_confirm = true ->
  (api_delete W docId = Rejected e
   \/ exists response,
        api_delete W docId = Resolved response /\ ok response = false
        /\ e = mkError (lit "Delete failed")) ->
  completion_of (deleteDocument W docId) st = Normal tt
  /\ fetches (events_of (deleteDocument W docId) st) = [ReqDelete docId]
  /\ alerts (events_of (deleteDocument W docId) st) = [lit "Delete failed: " ++ message e]
  /\ documents_metadata (state_after (deleteDocument W docId) st) = documents_metadata st
  /\ documentsGrid (state_after (deleteDocument W docId) st) = documentsGrid st.
Proof.
  intros Hyes Hfail.
  unfold deleteDocument, fetch_delete, completion_of, events_of, state_after.
  run_monad. rewrite Hyes. cbn [negb].
  destruct Hfail as [Hapi|(response & Hapi & Hok & ->)]; rewrite Hapi; [|rewrite Hok];
    cbn [fst snd]; (split; [reflexivity|]);
    erewrite events_since_app by (state_simpl; rewrite <- ?app_assoc; reflexivity);
    repeat split; reflexivity.
Qed.

(** X6.  A delete that is not carried out leaves the documents alone.
    When the user declines the confirmation nothing is sent and nothing
    changes but the record of the question.  When a confirmed delete is
    refused by the backend (a response that is not ok) or does not get
    through, one alert reports it, the listing is not requested again, the
    registry and the grid stay as they were and the call completes
    normally. *)
Theorem delete_not_carried_out (docId : DocId) (st : State) (e : JSError) :
  (confirm W delete_confirm = false ->
     deleteDocument W docId st = (Normal tt, add_events [EvConfirm delete_confirm] st))
  /\ (confirm W delete_confirm = true ->
      (api_delete W docId = Rejected e
       \/ exists response,
            api_delete W docId = Resolved response /\ ok response = false
            /\ e = mkError (lit "Delete failed")) ->
      completion_of (deleteDocument W docId) st = Normal tt
      /\ fetches (events_of (deleteDocument W docId) st) = [ReqDelete docId]
      /\ alerts (events_of (deleteDocument W docId) st)
         = [lit "Delete failed: " ++ message e]
      /\ documents_metadata (state_after (deleteDocument W docId) st)
         = documents_metadata st
      /\ documentsGrid (state_after (deleteDocument W docId) st) = documentsGrid st).
Proof.
  split; [apply delete_declined|apply delete_failure_run].
Qed.


End Registry.

(* ================================================================== *)
(** ** Further properties: the operations as a whole *)

Section Settling.
Context {num : Type} (W : World num).

Lemma quickAnalyze_settles (docId : DocId) (st : State) :
  completion_of (quickAnalyzeDocument W docId) st = Normal tt
  /\ style_display (state_after (quickAnalyzeDocument W docId) st) loading
     = Some DisplayNone.
Proof.
  destruct (extractSample_run W docId) as (evs & k & Hrun & _).
  unfold quickAnalyzeDocument, fetch_insights, state_after, completion_of.
  run_monad. rewrite Hrun.
  destruct (insufficient quick_threshold (sample_text W docId)); [split; reflexivity|].
  destruct (api_insights W docId (sample_text W docId)) as [resp|e];
    [|split; reflexivity].
  destruct (json resp) as [ins|e]; [|split; reflexivity].
  state_simpl.
  destruct (registry_get docId (documents_metadata st)); split; reflexivity.
Qed.

Lemma analyze_settles (docId : DocId) (specificText : option jsstring) (st : State) :
  completion_of (analyzeDocument W docId specificText) st = Normal tt
  /\ style_display (state_after (analyzeDocument W docId specificText) st) loading
     = Some DisplayNone.
Proof.
  destruct (text_to_analyze_run W docId specificText) as (evs & Hrun & _).
  unfold analyzeDocument, fetch_insights, state_after, completion_of.
  run_monad. rewrite Hrun.
  destruct (insufficient full_threshold (text_to_analyze W docId specificText)) eqn:Hins;
    [split; reflexivity|].
  apply sufficient_truthy in Hins.
  destruct (api_insights W docId (text_to_analyze W docId specificText)) as [resp|e];
    [|split; reflexivity].
  destruct (json resp) as [ins|e]; [|split; reflexivity].
  match goal with
  | |- context [showRelatedSections W docId _ ?s] =>
      destruct (@showRelated_run _ W docId _ s Hins) as (evs' & st' & Hrel & _)
  end.
  rewrite Hrel. split; reflexivity.
Qed.

Lemma podcast_settles (docId : DocId) (st : State) :
  currentDocumentId st = Some docId ->
  truthy docId = true ->
  completion_of (generatePodcast W) st = Normal tt
  /\ style_display (state_after (generatePodcast W) st) loading = Some DisplayNone.
Proof.
  intros Hcur Hid.
  destruct (extractText_run W docId) as (evs & k & Hrun & _).
  unfold generatePodcast, fetch_podcast, state_after, completion_of.
  run_monad. rewrite Hcur, Hid. cbn [negb]. rewrite Hrun.
  destruct (insufficient podcast_threshold (full_text W docId)); [split; reflexivity|].
  destruct (api_podcast W docId (full_text W docId)) as [resp|e]; [|split; reflexivity].
  destruct (json resp) as [podcast|e]; split; reflexivity.
Qed.

(** X8.  Quick analysis, full analysis and podcast generation never
    complete by throwing, whatever the PDF reader and the backend do, and
    each leaves the loading indicator hidden when it ends. *)
Theorem operations_settle (docId : DocId) (specificText : option jsstring) (st : State) :
  (completion_of (quickAnalyzeDocument W docId) st = Normal tt
   /\ style_display (state_after (quickAnalyzeDocument W docId) st) loading
      = Some DisplayNone)
  /\ (completion_of (analyzeDocument W docId specificText) st = Normal tt
      /\ style_display (state_after (analyzeDocument W docId specificText) st) loading
         = Some DisplayNone)
  /\ (currentDocumentId st = Some docId ->
      truthy docId = true ->
      completion_of (generatePodcast W) st = Normal tt
      /\ style_display (state_after (generatePodcast W) st) loading = Some DisplayNone).
Proof.
  split; [apply quickAnalyze_settles|]. split; [apply analyze_settles|].
  apply podcast_settles.
Qed.

(** X9.  With no document open ([currentDocumentId] null or the empty
    string) [generatePodcast] and [analyzeFullDocument] do nothing at all:
    the state, its record of requests included, is the one they started
    from. *)
Theorem no_document_no_effect (st : State) :
  currentDocumentId st = None \/ currentDocumentId st = Some [] ->
  generatePodcast W st = (Normal tt, st)
  /\ analyzeFullDocument W st = (Normal tt, st).
Proof.
  intros H. split; [now apply podcast_no_document|].
  unfold analyzeFullDocument, bind, get, ret.
  destruct H as [H|H]; rewrite H; reflexivity.
Qed.

End Settling.

Lemma documents_opened_app (a b : list Event) :
  documents_opened (a ++ b) = documents_opened a ++ documents_opened b.
Proof. apply flat_map_app. Qed.

Lemma trimStart_app_ellipsis (s : jsstring) :
  trimStart (s ++ ellipsis) = trimStart s ++ ellipsis.
Proof.
  induction s as [|c s IH]; [reflexivity|].
  cbn [app trimStart]. destruct (is_white_space c); [exact IH|reflexivity].
Qed.

Lemma trimEnd_app_ellipsis (s : jsstring) : trimEnd (s ++ ellipsis) = s ++ ellipsis.
Proof.
  unfold trimEnd. rewrite rev_app_distr.
  change (rev ellipsis) with ellipsis.
  change (trimStart (ellipsis ++ rev s)) with (ellipsis ++ rev s).
  rewrite rev_app_distr, rev_involutive. reflexivity.
Qed.

Lemma trim_app_ellipsis (s : jsstring) : trim (s ++ ellipsis) = trimStart s ++ ellipsis.
Proof. unfold trim. now rewrite trimStart_app_ellipsis, trimEnd_app_ellipsis. Qed.

Section Texts.
Context {num : Type} (W : World num) (docId : DocId).

(** X10.  A non-empty text handed to [analyzeDocument] is analysed as it
    is: no PDF is opened and no page is read, and [textToAnalyze] is that
    text.  An empty string is treated like no text: the run is the one of
    a call without the argument. *)
Theorem specific_text_skips_extraction (t : jsstring) (st : State) :
  (truthy t = true ->
     text_to_analyze W docId (Some t) = t
     /\ documents_opened (events_of (analyzeDocument W docId (Some t)) st) = []
     /\ pages_read (events_of (analyzeDocument W docId (Some t)) st) = [])
  /\ analyzeDocument W docId (Some []) st = analyzeDocument W docId None st.
Proof.
  split; [|reflexivity].
  intros Ht.
  assert (Htext : text_to_analyze W docId (Some t) = t).
  { unfold text_to_analyze. now rewrite Ht. }
  split; [exact Htext|].
  unfold analyzeDocument, fetch_insights, events_of, state_after.
  run_monad. rewrite Ht.
  destruct (insufficient full_threshold t) eqn:Hins.
  { since_trace. auto. }
  destruct (api_insights W docId t) as [resp|e]; [|since_trace; auto].
  destruct (json resp) as [ins|e]; [|since_trace; auto].
  match goal with
  | |- context [showRelatedSections W docId t ?s] =>
      destruct (@showRelated_run _ W docId t s Ht)
        as (evs & st' & Hrel & Htr & _ & _ & Hd & Hp & _)
  end.
  rewrite Hrel. cbn [snd].
  change (events_since st (set_display loading DisplayNone st'))
    with (events_since st st').
  assert (Hsince : events_since st st' = EvFetch (ReqInsights docId t) :: evs).
  { apply events_since_app. rewrite Htr, displayInsights_trace. state_simpl.
    rewrite <- app_assoc. reflexivity. }
  rewrite Hsince. cbn. auto.
Qed.

(** X11.  For a document of at most three readable pages whose pages'
    texts, each followed by its blank-line separator, add up to at most
    1000 characters, the quick sample and the full text are the same
    string. *)
Theorem small_document_same_text (pdf : PDFDocument) (items : nat -> list TextItem) :
  getDocument W docId = Resolved pdf ->
  numPages pdf <= 3 ->
  (forall i, 1 <= i <= numPages pdf -> page_items pdf i = Resolved (items i)) ->
  length (pages_text items 1 (numPages pdf)) <= 1000 ->
  sample_text W docId = full_text W docId
  /\ full_text W docId = trim (pages_text items 1 (numPages pdf)).
Proof.
  intros Hopen Hn Hpages Hlen.
  assert (H3 : Nat.min (numPages pdf) 3 = numPages pdf) by lia.
  assert (H10 : Nat.min (numPages pdf) 10 = numPages pdf) by lia.
  assert (Hs : sample_text W docId = trim (pages_text items 1 (numPages pdf))).
  { unfold sample_text, completion_of.
    rewrite (@extractSample_all _ W docId pdf items Hopen initial_state);
      rewrite H3; auto. }
  assert (Hf : full_text W docId = trim (pages_text items 1 (numPages pdf))).
  { unfold full_text, completion_of.
    rewrite (@extractText_all _ W docId pdf items Hopen initial_state);
      rewrite H10; auto. }
  split; [congruence|exact Hf].
Qed.

(** X12.  A sample that was cut is the first 1000 characters of the pages
    read, without leading white space, followed by the ellipsis: it always
    ends with the ellipsis and has between 3 and 1003 characters. *)
Theorem truncated_sample_shape (pdf : PDFDocument) (items : nat -> list TextItem)
  (j : nat) (st : State) :
  getDocument W docId = Resolved pdf ->
  j < Nat.min (numPages pdf) 3 ->
  (forall i, 1 <= i <= S j -> page_items pdf i = Resolved (items i)) ->
  length (pages_text items 1 j) <= 1000 ->
  1000 < length (pages_text items 1 (S j)) ->
  exists body,
    completion_of (extractSampleTextFromPDF W docId) st = Normal (body ++ ellipsis)
    /\ body = trimStart (firstn 1000 (pages_text items 1 (S j)))
    /\ 3 <= length (body ++ ellipsis) <= 1003.
Proof.
  intros Hopen Hj Hpages Hfit Hcross.
  exists (trimStart (firstn 1000 (pages_text items 1 (S j)))).
  unfold completion_of.
  rewrite (@extractSample_truncates _ W docId pdf items Hopen j st Hj Hpages Hfit Hcross).
  cbn [fst]. unfold substring0. rewrite trim_app_ellipsis.
  split; [reflexivity|]. split; [reflexivity|].
  rewrite length_app.
  pose proof (trimStart_length (firstn 1000 (pages_text items 1 (S j)))) as Hle.
  rewrite length_firstn in Hle.
  change (length ellipsis) with 3. lia.
Qed.

(** X13.  The podcast threshold is the strictest one on the full text: a
    document whose text is long enough for the podcast request is long
    enough for full analysis, which then sends its insight request with
    the same text. *)
Theorem podcast_implies_analysis (st st' : State) :
  currentDocumentId st = Some docId ->
  truthy docId = true ->
  In (ReqPodcast docId (full_text W docId)) (fetches (events_of (generatePodcast W) st)) ->
  exists rest,
    fetches (events_of (analyzeDocument W docId None) st')
    = ReqInsights docId (full_text W docId) :: rest.
Proof.
  intros Hcur Hid Hin.
  pose proof (@podcast_run _ W docId st Hcur Hid) as H. cbv zeta in H.
  destruct (length (trim (full_text W docId)) <? podcast_threshold) eqn:Hlen.
  { destruct H as (H & _). rewrite H in Hin. destruct Hin. }
  apply (@analyze_first_request _ W docId None st').
  unfold text_to_analyze.
  apply Nat.ltb_ge in Hlen. apply Nat.ltb_ge.
  unfold podcast_threshold, full_threshold in *. lia.
Qed.

End Texts.

(* ================================================================== *)
(** ** Further properties: narration *)

Lemma resolve_script_truthy (podcast : PodcastResponse) (t : jsstring) :
  truthy t = true -> truthy (resolve_script podcast t) = true.
Proof.
  intros Ht. unfold resolve_script, or_else.
  destruct (truthy (if truthy (opt_string (script podcast))
                    then opt_string (script podcast)
                    else opt_string (text_content podcast))) eqn:E; [exact E|exact Ht].
Qed.

Lemma view_keeps_narration (docId : DocId) (s : State) :
  currentPodcastText (viewDocument docId s) = currentPodcastText s.
Proof.
  unfold viewDocument. cbv zeta. state_simpl.
  destruct (member_truthy (registry_get docId (documents_metadata s))); reflexivity.
Qed.

Section Narration.
Context {num : Type} (W : World num).

(** X14.  After a podcast response that arrived and decoded, the stored
    narration is the resolved script and is never empty; the podcast panel
    is visible and reads as the first 500 characters of the script
    followed by the ellipsis; and [playPodcast] speaks exactly that script
    at rate 0.8, cancelling first when speech is in progress. *)
Theorem narration_ready (docId : DocId) (st : State)
  (response : Response PodcastResponse) (podcast : PodcastResponse) (speaking : bool) :
  currentDocumentId st = Some docId ->
  truthy docId = true ->
  podcast_threshold <= length (trim (full_text W docId)) ->
  api_podcast W docId (full_text W docId) = Resolved response ->
  json response = Resolved podcast ->
  let st' := state_after (generatePodcast W) st in
  let narration := resolve_script podcast (full_text W docId) in
  narration <> []
  /\ currentPodcastText st' = Some narration
  /\ (exists markup,
        podcastContent st' = Some markup
        /\ html_text markup = firstn 500 narration ++ lit "...")
  /\ style_display st' podcastContainer = Some DisplayBlock
  /\ playPodcast speaking st'
     = (if speaking then [SpeechCancel] else [])
       ++ [SpeechSpeak (mkUtterance narration decimal_0_8 decimal_1 decimal_1)].
Proof.
  intros Hcur Hid Hlen Hapi Hjson. cbv zeta.
  assert (Hins : insufficient podcast_threshold (full_text W docId) = false).
  { rewrite insufficient_length by (unfold podcast_threshold; lia).
    now apply Nat.ltb_ge. }
  assert (Htruthy : truthy (resolve_script podcast (full_text W docId)) = true).
  { apply resolve_script_truthy. eapply sufficient_truthy; eauto. }
  destruct (extractText_run W docId) as (evs & k & Hrun & _).
  assert (Hstate : state_after (generatePodcast W) st
    = set_display loading DisplayNone
        (set_display podcastContainer DisplayBlock
          (set_podcastContent
             (escapeHtml (substring0 500 (resolve_script podcast (full_text W docId)))
              ++ ellipsis)
             (set_currentPodcastText (Some (resolve_script podcast (full_text W docId)))
                (add_events [EvFetch (ReqPodcast docId (full_text W docId))]
                   (add_events evs (set_display loading DisplayBlock st))))))).
  { unfold generatePodcast, fetch_podcast, state_after.
    run_monad. rewrite Hcur, Hid. cbn [negb]. rewrite Hrun, Hins, Hapi, Hjson.
    reflexivity. }
  rewrite Hstate. split; [|split; [|split; [|split]]].
  - intros Hnil. rewrite Hnil in Htruthy. discriminate.
  - reflexivity.
  - eexists. split; [reflexivity|].
    rewrite html_text_escapeHtml_app. reflexivity.
  - reflexivity.
  - unfold playPodcast. state_simpl. rewrite Htruthy. reflexivity.
Qed.

End Narration.

(** X15.  Playback depends on the stored narration alone: with none (or
    an empty one) [playPodcast] makes no speech call, and opening another
    document or going back to the list changes nothing of what it would
    speak. *)
Theorem playback_follows_narration (speaking : bool) (docId : DocId) (s : State) :
  (currentPodcastText s = None \/ currentPodcastText s = Some [] ->
     playPodcast speaking s = [])
  /\ playPodcast speaking (viewDocument docId s) = playPodcast speaking s
  /\ playPodcast speaking (goBack s) = playPodcast speaking s.
Proof.
  split; [|split].
  - unfold playPodcast. intros [H|H]; rewrite H; reflexivity.
  - unfold playPodcast. now rewrite view_keeps_narration.
  - reflexivity.
Qed.

(* ================================================================== *)
(** ** Further properties: related sections and failures *)

Section Related.
Context {num : Type} (W : World num).

Lemma render_cards_missing (l : list (RelatedSection num)) :
  (exists s, In s l /\ text s = None) ->
  render_cards W l = Throw (type_error W).
Proof.
  induction l as [|s l IH]; intros (s0 & Hin & Hnone).
  - destruct Hin.
  - cbn [render_cards]. unfold render_card.
    destruct (text s) as [ts|] eqn:Hts; [|reflexivity].
    destruct Hin as [->|Hin]; [congruence|].
    rewrite IH by eauto. reflexivity.
Qed.

(** X16.  When [showRelatedSections] shows nothing or the notice.  With an
    empty text it returns at once, sending nothing.  With a text that
    [encodeURIComponent] cannot encode (a surrogate without its pair) no
    request is sent either: the URIError goes to the console and the panel
    keeps its content and visibility.  With a text that can be encoded and
    an answer that decodes to null or to an empty list, whatever its
    status, one request is sent, the no-result notice is shown and the
    panel is made visible. *)
Theorem related_display (docId : DocId) (txt : jsstring) (st : State)
  (response : Response (option (list (RelatedSection num))))
  (related : option (list (RelatedSection num))) :
  let run := showRelatedSections W docId txt in
  showRelatedSections W docId [] st = (Normal tt, st)
  /\ (truthy txt = true ->
      well_formed txt = false ->
      completion_of run st = Normal tt
      /\ fetches (events_of run st) = []
      /\ console_errors (events_of run st)
         = [(lit "Failed to load related sections:", uri_error W)]
      /\ relatedContent (state_after run st) = relatedContent st
      /\ style_display (state_after run st) relatedSections
         = style_display st relatedSections)
  /\ (truthy txt = true ->
      well_formed txt = true ->
      api_related W docId txt 5 = Resolved response ->
      json response = Resolved related ->
      related = None \/ related = Some [] ->
      completion_of run st = Normal tt
      /\ fetches (events_of run st) = [ReqRelated docId txt 5]
      /\ console_errors (events_of run st) = []
      /\ relatedContent (state_after run st) = Some NoRelatedSections
      /\ style_display (state_after run st) relatedSections = Some DisplayBlock).
Proof.
  cbv zeta. split; [reflexivity|]. split.
  - intros Ht Hwf.
    unfold showRelatedSections, fetch_related, completion_of, events_of, state_after.
    rewrite Ht, Hwf. cbn [negb]. run_monad.
    since_trace. repeat split; reflexivity.
  - intros Ht Hwf Hapi Hjson Hrel.
    unfold completion_of, events_of, state_after.
    rewrite (@showRelated_notice _ W docId txt st response related Ht Hwf Hapi Hjson Hrel).
    since_trace. repeat split; reflexivity.
Qed.

(** X17.  One related section without a text spoils the whole list: for a
    text that can be encoded and an answer that decodes to a list holding
    such a section, no card is written, the panel keeps its content and
    its visibility, and the TypeError is reported on the console; the call
    still completes normally. *)
Theorem related_missing_text (docId : DocId) (txt : jsstring) (st : State)
  (response : Response (option (list (RelatedSection num))))
  (l : list (RelatedSection num)) :
  truthy txt = true ->
  well_formed txt = true ->
  api_related W docId txt 5 = Resolved response ->
  json response = Resolved (Some l) ->
  (exists s, In s l /\ text s = None) ->
  let run := showRelatedSections W docId txt in
  completion_of run st = Normal tt
  /\ fetches (events_of run st) = [ReqRelated docId txt 5]
  /\ relatedContent (state_after run st) = relatedContent st
  /\ style_display (state_after run st) relatedSections = style_display st relatedSections
  /\ console_errors (events_of run st)
     = [(lit "Failed to load related sections:", type_error W)].
Proof.
  intros Ht Hwf Hapi Hjson Hmiss. cbv zeta.
  pose proof (@render_cards_missing l Hmiss) as Hthrow.
  destruct l as [|sec l]; [destruct Hmiss as (s & [] & _)|].
  unfold showRelatedSections, fetch_related, state_after, completion_of, events_of.
  rewrite Ht, Hwf. cbn [negb].
  run_monad. rewrite Hapi, Hjson. cbv beta iota. rewrite Hthrow.
  since_trace. repeat split; reflexivity.
Qed.

(** X18.  When the insight request of [analyzeDocument] is rejected or its
    body does not decode, nothing on the page is rewritten: the insights
    and related-sections panels keep their content and visibility, one
    alert carries the error message, and no second request is sent. *)
Theorem analysis_failure_keeps_page (docId : DocId) (specificText : option jsstring)
  (st : State) (e : JSError) :
  let t := text_to_analyze W docId specificText in
  let run := analyzeDocument W docId specificText in
  full_threshold <= length (trim t) ->
  (api_insights W docId t = Rejected e
   \/ exists response,
        api_insights W docId t = Resolved response /\ json response = Rejected e) ->
  fetches (events_of run st) = [ReqInsights docId t]
  /\ alerts (events_of run st) = [lit "Analysis failed: " ++ message e]
  /\ In (lit "Analysis failed:", e) (console_errors (events_of run st))
  /\ insightsContent (state_after run st) = insightsContent st
  /\ relatedContent (state_after run st) = relatedContent st
  /\ style_display (state_after run st) insightsContainer = style_display st insightsContainer
  /\ style_display (state_after run st) relatedSections = style_display st relatedSections.
Proof.
  cbv zeta. intros Hlen Hfail.
  destruct (text_to_analyze_run W docId specificText) as (evs & Hrun & Hf & Ha).
  assert (Hins : insufficient full_threshold (text_to_analyze W docId specificText) = false).
  { rewrite insufficient_length by (unfold full_threshold; lia). now apply Nat.ltb_ge. }
  unfold analyzeDocument, fetch_insights, events_of, state_after.
  run_monad. rewrite Hrun, Hins.
  destruct Hfail as [Hapi|(response & Hapi & Hjson)]; rewrite Hapi; [|rewrite Hjson];
    since_trace; list_obs; rewrite Hf, Ha;
    (repeat split; try reflexivity);
    apply in_or_app; right; now left.
Qed.

(** X19.  What quick analysis shows once its insight response has arrived
    and decoded depends on [documents_metadata[docId]].  When that is
    undefined, no modal is added and the user gets the failure alert,
    although the request was sent and answered.  Otherwise exactly one
    modal is added: titled with the document's title when the id is
    registered, and with an empty title when the id only names an
    inherited member of the registry object, such as [constructor]. *)
Theorem quick_modal_needs_registry (docId : DocId) (st : State) (ins : InsightsResponse) :
  let t := sample_text W docId in
  let run := quickAnalyzeDocument W docId in
  quick_threshold <= length (trim t) ->
  insights_decoded W docId t ins ->
  (registry_get docId (documents_metadata st) = MemberNullish ->
     modals (state_after run st) = modals st
     /\ alerts (events_of run st)
        = [lit "Quick analysis failed: " ++ message (type_error W)]
     /\ fetches (events_of run st) = [ReqInsights docId t])
  /\ (registry_get docId (documents_metadata st) <> MemberNullish ->
      modals (state_after run st)
      = modals (showQuickInsights ins
                  (title_text (registry_get docId (documents_metadata st))) st)
      /\ length (modals (state_after run st)) = S (length (modals st))
      /\ alerts (events_of run st) = [])
  /\ (forall doc, own_entry docId (documents_metadata st) = Some doc ->
        modals (state_after run st) = modals (showQuickInsights ins (title doc) st))
  /\ (own_entry docId (documents_metadata st) = None ->
      In docId object_prototype_names ->
      modals (state_after run st) = modals (showQuickInsights ins [] st)).
Proof.
  cbv zeta. intros Hlen (response & Hapi & Hjson).
  destruct (extractSample_run W docId) as (evs & k & Hrun & _ & _ & _ & Hf & Ha & _).
  assert (Hins : insufficient quick_threshold (sample_text W docId) = false).
  { rewrite insufficient_length by (unfold quick_threshold; lia). now apply Nat.ltb_ge. }
  assert (Hshown : registry_get docId (documents_metadata st) <> MemberNullish ->
    modals (state_after (quickAnalyzeDocument W docId) st)
    = modals (showQuickInsights ins
                (title_text (registry_get docId (documents_metadata st))) st)
    /\ length (modals (state_after (quickAnalyzeDocument W docId) st))
       = S (length (modals st))
    /\ alerts (events_of (quickAnalyzeDocument W docId) st) = []).
  { intros Hdef.
    unfold quickAnalyzeDocument, fetch_insights, events_of, state_after.
    run_monad. rewrite Hrun, Hins, Hapi, Hjson. state_simpl.
    destruct (registry_get docId (documents_metadata st)); try congruence;
      since_trace; list_obs; rewrite Ha;
      (split; [reflexivity|]); (split; [|reflexivity]);
      rewrite length_app; cbn; lia. }
  split; [|split; [exact Hshown|split]].
  - intros Hundef.
    unfold quickAnalyzeDocument, fetch_insights, events_of, state_after.
    run_monad. rewrite Hrun, Hins, Hapi, Hjson. state_simpl. rewrite Hundef.
    since_trace. list_obs. rewrite Ha, Hf. repeat split; reflexivity.
  - intros doc Hown.
    assert (Hget : registry_get docId (documents_metadata st) = MemberDocument doc).
    { unfold registry_get. now rewrite Hown. }
    destruct Hshown as (Hm & _); [rewrite Hget; discriminate|].
    rewrite Hm, Hget. reflexivity.
  - intros Hown Hin.
    pose proof (@registry_get_builtin _ _ Hown Hin) as Hget.
    destruct Hshown as (Hm & _); [rewrite Hget; discriminate|].
    rewrite Hm, Hget. reflexivity.
Qed.

End Related.

(** X20.  [closeModal] removes the modal that was opened first.  Opening a
    quick-insights modal on a page without one and closing it gives the
    page back as it was; with a modal already open, closing removes that
    older one and the new modal stays. *)
Theorem close_modal_oldest (ins : InsightsResponse) (docTitle : jsstring) (s : State) :
  (modals s = [] -> closeModal (showQuickInsights ins docTitle s) = s)
  /\ (forall m rest, modals s = m :: rest ->
        exists new,
          modals (showQuickInsights ins docTitle s) = m :: rest ++ [new]
          /\ modals (closeModal (showQuickInsights ins docTitle s)) = rest ++ [new])
  /\ (modals s = [] -> closeModal s = s).
Proof.
  split; [|split].
  - intros Hnil. destruct s. cbn in Hnil. subst. reflexivity.
  - intros m rest Hm. eexists.
    unfold closeModal, showQuickInsights. state_simpl. rewrite Hm.
    split; reflexivity.
  - intros Hnil. unfold closeModal. now rewrite Hnil.
Qed.

(** X21.  After a listing has been loaded, opening a document shows the
    title of the last listed document with that id.  Opening an id that is
    not listed leaves the title that was shown before when the id names
    nothing inherited, and blanks the title when the id names a member of
    [Object.prototype], such as [constructor]. *)
Theorem title_after_refresh {num} (W : World num) (docId : DocId) (st : State)
  (response : Response DocumentsListing) (data : DocumentsListing) :
  api_documents W = Resolved response ->
  json response = Resolved data ->
  let st' := viewDocument docId (state_after (loadDocuments W) st) in
  currentDocumentId st' = Some docId
  /\ pdfViewer_src st' = Some docId
  /\ (forall doc, last_listed docId (documents data) = Some doc ->
        currentDocTitle st' = Some (title doc))
  /\ (last_listed docId (documents data) = None ->
      inherited_name docId = false ->
      currentDocTitle st' = currentDocTitle st)
  /\ (last_listed docId (documents data) = None ->
      In docId object_prototype_names ->
      currentDocTitle st' = Some []).
Proof.
  intros Hapi Hjson. cbv zeta.
  assert (Hstate : state_after (loadDocuments W) st
    = displayDocuments (documents data)
        (set_documents_metadata (registry_of (documents data))
           (add_events [EvFetch ReqDocuments] st))).
  { unfold loadDocuments, fetch_documents, state_after. run_monad.
    rewrite Hapi, Hjson. reflexivity. }
  rewrite Hstate. unfold viewDocument. cbv zeta. state_simpl.
  split; [|split; [|split; [|split]]].
  - destruct (member_truthy _); reflexivity.
  - destruct (member_truthy _); reflexivity.
  - intros doc Hlisted. rewrite (@registry_get_listed _ _ _ Hlisted). reflexivity.
  - intros Hnone Hname.
    rewrite registry_get_unlisted; [reflexivity| |exact Hname].
    now rewrite registry_lookup.
  - intros Hnone Hin.
    rewrite registry_get_builtin; [reflexivity| |exact Hin].
    now rewrite registry_lookup.
Qed.

(* ================================================================== *)
(** ** Further properties: upload *)

Section Upload.
Context {num : Type} (W : World num).
Variable api_upload : list File -> outcome (Response UploadResult).

Lemma upload_needs_files (form : UploadForm) (st : State) :
  fileInput_files form = [] ->
  uploadFile W api_upload form st
  = (Normal form, add_events [EvAlert (lit "Please select at least one PDF file")] st).
Proof.
  intros Hnone. unfold uploadFile. rewrite Hnone. reflexivity.
Qed.

(** X22.  An upload the backend accepts posts exactly the selected files,
    in order, announces the count it answered, empties the file input and
    the line under it, asks for the listing again and leaves the loading
    indicator hidden. *)
Theorem upload_success (form : UploadForm) (st : State)
  (response : Response UploadResult) (result : UploadResult) :
  fileInput_files form <> [] ->
  api_upload (fileInput_files form) = Resolved response ->
  ok response = true ->
  json response = Resolved result ->
  let run := uploadFile W api_upload form in
  completion_of run st
  = Normal (mkForm [] [] (posted form ++ [fileInput_files form]))
  /\ alerts (events_of run st) = [upload_success_alert result]
  /\ fetches (events_of run st) = [ReqDocuments]
  /\ style_display (state_after run st) loading = Some DisplayNone.
Proof.
  intros Hfiles Hapi Hok Hjson. cbv zeta.
  unfold uploadFile, loadDocuments, fetch_documents, completion_of, events_of, state_after.
  destruct (fileInput_files form) as [|f files] eqn:Hf; [congruence|].
  run_monad. rewrite Hapi, Hok, Hjson.
  destruct (api_documents W) as [listing|e].
  - destruct (json listing) as [data|e];
      since_trace; list_obs; repeat split; reflexivity.
  - since_trace; list_obs; repeat split; reflexivity.
Qed.

Lemma upload_failure_run (form : UploadForm) (st : State) (e : JSError) :
  fileInput_files form <> [] ->
  (api_upload (fileInput_files form) = Rejected e
   \/ (exists response,
         api_upload (fileInput_files form) = Resolved response
         /\ ok response = false /\ e = mkError (lit "Upload failed"))
   \/ (exists response,
         api_upload (fileInput_files form) = Resolved response
         /\ ok response = true /\ json response = Rejected e)) ->
  let run := uploadFile W api_upload form in
  completion_of run st
  = Normal (mkForm (fileInput_files form) (selectedFiles form)
                   (posted form ++ [fileInput_files form]))
  /\ alerts (events_of run st) = [cross_mark ++ lit " Upload failed: " ++ message e]
  /\ fetches (events_of run st) = []
  /\ documents_metadata (state_after run st) = documents_metadata st
  /\ style_display (state_after run st) loading = Some DisplayNone.
Proof.
  intros Hfiles Hfail. cbv zeta.
  unfold uploadFile, completion_of, events_of, state_after.
  destruct (fileInput_files form) as [|f files] eqn:Hf; [congruence|].
  run_monad.
  destruct Hfail as [Hapi|[(response & Hapi & Hok & ->)|(response & Hapi & Hok & Hjson)]];
    rewrite Hapi; try rewrite Hok; try rewrite Hjson;
    since_trace; list_obs; repeat split; reflexivity.
Qed.

(** X23.  An upload that is not carried out keeps the selection.  With no
    file selected [uploadFile] only asks for one: nothing is posted and
    the loading indicator is not touched.  With files selected, an upload
    that is rejected, answered with a response that is not ok, or answered
    with a body that does not decode is reported in one alert: the
    selection stays in the form, the listing is not requested, the
    registry is unchanged, the loading indicator ends hidden and the call
    completes normally. *)
Theorem upload_not_carried_out (form : UploadForm) (st : State) (e : JSError) :
  (fileInput_files form = [] ->
     uploadFile W api_upload form st
     = (Normal form, add_events [EvAlert (lit "Please select at least one PDF file")] st))
  /\ (fileInput_files form <> [] ->
      (api_upload (fileInput_files form) = Rejected e
       \/ (exists response,
             api_upload (fileInput_files form) = Resolved response
             /\ ok response = false /\ e = mkError (lit "Upload failed"))
       \/ (exists response,
             api_upload (fileInput_files form) = Resolved response
             /\ ok response = true /\ json response = Rejected e)) ->
      let run := uploadFile W api_upload form in
      completion_of run st
      = Normal (mkForm (fileInput_files form) (selectedFiles form)
                       (posted form ++ [fileInput_files form]))
      /\ alerts (events_of run st) = [cross_mark ++ lit " Upload failed: " ++ message e]
      /\ fetches (events_of run st) = []
      /\ documents_metadata (state_after run st) = documents_metadata st
      /\ style_display (state_after run st) loading = Some DisplayNone).
Proof.
  split; [apply upload_needs_files|apply upload_failure_run].
Qed.

End Upload.

(* ================================================================== *)
(** ** The further properties on the sample documents *)

Import MoreExamples.

Lemma escapeHtml_faithful_witness :
  html_text (escapeHtml (lit "R&D <b>")) = lit "R&D <b>"
  /\ lit "R&D <b>" = lit "R&D <b>".
Proof.
  destruct (escapeHtml_faithful (lit "R&D <b>") (lit "R&D <b>")) as [H1 H2].
  split; [exact H1|exact (H2 eq_refl)].
Defined.

(** [doc-7] is listed twice: the later entry wins; [doc-1] is not listed;
    [constructor] is not listed either, but found. *)
Lemma registry_round_trip_witness :
  registry_get (lit "doc-7") (registry_of [report; memo; report_v2])
  = MemberDocument report_v2
  /\ registry_get (lit "doc-1") (registry_of [report; memo; report_v2]) = MemberNullish
  /\ registry_get (lit "constructor") (registry_of [report; memo; report_v2])
     = MemberBuiltin.
Proof.
  destruct (registry_round_trip [report; memo; report_v2] (lit "doc-7"))
    as (H1 & _).
  destruct (registry_round_trip [report; memo; report_v2] (lit "doc-1"))
    as (_ & _ & _ & H4 & _).
  destruct (registry_round_trip [report; memo; report_v2] (lit "constructor"))
    as (_ & _ & _ & _ & H5).
  split; [|split].
  - apply H1. reflexivity.
  - apply H4; [|reflexivity]. intros d [<-|[<-|[<-|[]]]]; discriminate.
  - apply H5; [|left; reflexivity]. intros d [<-|[<-|[<-|[]]]]; discriminate.
Defined.


Lemma loadDocuments_failure_keeps_witness :
  documents_metadata (state_after (loadDocuments W_offline) st_listed)
  = documents_metadata st_listed
  /\ completion_of (loadDocuments W_offline) st_listed = Normal tt.
Proof.
  destruct (@loadDocuments_failure_keeps _ W_offline st_listed Examples.network_down)
    as (Hc & _ & Hm & _).
  - left. reflexivity.
  - split; [exact Hm|exact Hc].
Defined.

Lemma delete_not_carried_out_witness :
  fetches (events_of (deleteDocument W_declined Examples.doc7) st_listed) = []
  /\ fetches (events_of (deleteDocument W_refused Examples.doc7) st_listed)
     = [ReqDelete Examples.doc7]
  /\ documents_metadata (state_after (deleteDocument W_refused Examples.doc7) st_listed)
     = documents_metadata st_listed.
Proof.
  destruct (@delete_not_carried_out _ W_declined Examples.doc7 st_listed
              Examples.network_down) as (Hd & _).
  destruct (@delete_not_carried_out _ W_refused Examples.doc7 st_listed
              (mkError (lit "Delete failed"))) as (_ & Hr).
  destruct (Hr eq_refl) as (_ & Hf & _ & Hm & _).
  { right. eexists. split; [reflexivity|]. split; reflexivity. }
  split; [|split; [exact Hf|exact Hm]].
  unfold events_of, state_after. rewrite (Hd eq_refl). reflexivity.
Defined.


Lemma operations_settle_witness :
  completion_of (generatePodcast W_medium) Examples.st_open = Normal tt
  /\ style_display (state_after (generatePodcast W_medium) Examples.st_open) loading
     = Some DisplayNone.
Proof.
  destruct (@operations_settle _ W_medium Examples.doc7 None Examples.st_open)
    as (_ & _ & H).
  exact (H eq_refl eq_refl).
Defined.

Lemma no_document_no_effect_witness :
  generatePodcast W_medium initial_state = (Normal tt, initial_state)
  /\ analyzeFullDocument W_medium initial_state = (Normal tt, initial_state).
Proof.
  apply (@no_document_no_effect _ W_medium initial_state). left. reflexivity.
Defined.

Lemma specific_text_skips_extraction_witness :
  documents_opened
    (events_of (analyzeDocument W_medium Examples.doc7 (Some (repeat 97%N 60))) initial_state)
  = [].
Proof.
  destruct (@specific_text_skips_extraction _ W_medium Examples.doc7 (repeat 97%N 60)
              initial_state) as (H & _).
  destruct (H eq_refl) as (_ & Hd & _). exact Hd.
Defined.

Lemma small_document_same_text_witness :
  sample_text W_medium Examples.doc7 = full_text W_medium Examples.doc7.
Proof.
  destruct (@small_document_same_text _ W_medium Examples.doc7 pdf_medium
              (fun _ => medium_page)) as (H & _).
  - reflexivity.
  - simpl. lia.
  - intros i _. reflexivity.
  - vm_compute. lia.
  - exact H.
Defined.

Lemma truncated_sample_shape_witness :
  exists body,
    completion_of (extractSampleTextFromPDF Examples.W_long Examples.doc7) initial_state
    = Normal (body ++ ellipsis)
    /\ length (body ++ ellipsis) <= 1003.
Proof.
  destruct (@truncated_sample_shape _ Examples.W_long Examples.doc7 Examples.pdf_long
              (fun _ => Examples.long_page) 0 initial_state)
    as (body & Hc & _ & _ & Hlen).
  - reflexivity.
  - vm_compute. lia.
  - intros i _. reflexivity.
  - simpl. lia.
  - vm_compute. lia.
  - exists body. split; [exact Hc|exact Hlen].
Defined.

Lemma podcast_implies_analysis_witness :
  exists rest,
    fetches (events_of (analyzeDocument W_medium Examples.doc7 None) initial_state)
    = ReqInsights Examples.doc7 (full_text W_medium Examples.doc7) :: rest.
Proof.
  apply (@podcast_implies_analysis _ W_medium Examples.doc7 Examples.st_open initial_state).
  - reflexivity.
  - reflexivity.
  - vm_compute. left. reflexivity.
Defined.

Lemma narration_ready_witness :
  currentPodcastText (state_after (generatePodcast W_medium) Examples.st_open)
  = Some (lit "A")
  /\ playPodcast true (state_after (generatePodcast W_medium) Examples.st_open)
     = [SpeechCancel; SpeechSpeak (mkUtterance (lit "A") decimal_0_8 decimal_1 decimal_1)].
Proof.
  destruct (@narration_ready _ W_medium Examples.doc7 Examples.st_open
              (mkResponse true (Resolved Examples.podcast_A)) Examples.podcast_A true)
    as (_ & Hn & _ & _ & Hp).
  - reflexivity.
  - reflexivity.
  - vm_compute. lia.
  - reflexivity.
  - reflexivity.
  - split; [exact Hn|exact Hp].
Defined.

Lemma playback_follows_narration_witness :
  playPodcast true initial_state = [].
Proof.
  destruct (playback_follows_narration true Examples.doc7 initial_state) as (H & _).
  apply H. left. reflexivity.
Defined.

(** A lone high surrogate cannot be encoded: nothing is sent. *)
Lemma related_display_witness :
  fetches (events_of (showRelatedSections W_status_500 Examples.doc7 [55357%N])
             initial_state) = []
  /\ relatedContent
       (state_after (showRelatedSections W_status_500 Examples.doc7 (lit "profit"))
          initial_state)
     = Some NoRelatedSections.
Proof.
  destruct (@related_display _ W_status_500 Examples.doc7 [55357%N] initial_state
              (mkResponse false (Resolved None)) None) as (_ & Hbad & _).
  destruct (@related_display _ W_status_500 Examples.doc7 (lit "profit") initial_state
              (mkResponse false (Resolved None)) None) as (_ & _ & Hnull).
  destruct (Hbad eq_refl eq_refl) as (_ & Hf & _).
  destruct (Hnull eq_refl eq_refl eq_refl eq_refl) as (_ & _ & _ & Hr & _).
  { left. reflexivity. }
  split; [exact Hf|exact Hr].
Defined.

Lemma related_missing_text_witness :
  relatedContent
    (state_after (showRelatedSections W_related_bad Examples.doc7 (lit "profit")) initial_state)
  = None
  /\ completion_of (showRelatedSections W_related_bad Examples.doc7 (lit "profit"))
       initial_state = Normal tt.
Proof.
  destruct (@related_missing_text _ W_related_bad Examples.doc7 (lit "profit") initial_state
              (mkResponse true (Resolved (Some [section_full; section_without_text])))
              [section_full; section_without_text]) as (Hc & _ & Hr & _).
  - reflexivity.
  - reflexivity.
  - reflexivity.
  - reflexivity.
  - exists section_without_text. split; [right; left; reflexivity|reflexivity].
  - split; [exact Hr|exact Hc].
Defined.

Lemma analysis_failure_keeps_page_witness :
  fetches (events_of (analyzeDocument W_insights_down Examples.doc7 None) initial_state)
  = [ReqInsights Examples.doc7 (text_to_analyze W_insights_down Examples.doc7 None)]
  /\ insightsContent (state_after (analyzeDocument W_insights_down Examples.doc7 None)
                        initial_state) = None.
Proof.
  destruct (@analysis_failure_keeps_page _ W_insights_down Examples.doc7 None initial_state
              Examples.network_down) as (Hf & _ & _ & Hi & _).
  - vm_compute. lia.
  - left. reflexivity.
  - split; [exact Hf|exact Hi].
Defined.

Lemma quick_modal_needs_registry_witness :
  length (modals (state_after (quickAnalyzeDocument W_medium Examples.doc7) st_listed)) = 1
  /\ modals (state_after (quickAnalyzeDocument W_medium Examples.doc7) initial_state) = []
  /\ modals (state_after (quickAnalyzeDocument W_medium (lit "constructor")) st_listed)
     = modals (showQuickInsights (mkInsights (Some Examples.bundle_without_connections))
                 [] st_listed).
Proof.
  assert (Hlen : forall d, quick_threshold <= length (trim (sample_text W_medium d)))
    by (intros d; vm_compute; lia).
  assert (Hok : forall d, insights_decoded W_medium d (sample_text W_medium d)
                  (mkInsights (Some Examples.bundle_without_connections)))
    by (intros d; eexists; split; reflexivity).
  destruct (@quick_modal_needs_registry _ W_medium Examples.doc7 st_listed
              (mkInsights (Some Examples.bundle_without_connections))
              (Hlen _) (Hok _)) as (_ & Hknown & _).
  destruct (@quick_modal_needs_registry _ W_medium Examples.doc7 initial_state
              (mkInsights (Some Examples.bundle_without_connections))
              (Hlen _) (Hok _)) as (Hunknown & _).
  destruct (@quick_modal_needs_registry _ W_medium (lit "constructor") st_listed
              (mkInsights (Some Examples.bundle_without_connections))
              (Hlen _) (Hok _)) as (_ & _ & _ & Hbuiltin).
  destruct Hknown as (_ & Hk & _); [discriminate|].
  destruct (Hunknown eq_refl) as (Hu & _).
  split; [exact Hk|]. split; [exact Hu|].
  apply Hbuiltin; [reflexivity|left; reflexivity].
Defined.

Lemma close_modal_oldest_witness :
  closeModal (showQuickInsights (mkInsights None) (lit "Memo") initial_state) = initial_state.
Proof.
  destruct (close_modal_oldest (mkInsights None) (lit "Memo") initial_state) as (H & _).
  apply H. reflexivity.
Defined.

Lemma title_after_refresh_witness :
  currentDocTitle (viewDocument Examples.doc7 (state_after (loadDocuments W_listed) initial_state))
  = Some (lit "Annual report (revised)")
  /\ currentDocTitle
       (viewDocument (lit "constructor") (state_after (loadDocuments W_listed) initial_state))
     = Some [].
Proof.
  destruct (@title_after_refresh _ W_listed Examples.doc7 initial_state
              (mkResponse true (Resolved (mkListing [report; memo; report_v2])))
              (mkListing [report; memo; report_v2]) eq_refl eq_refl)
    as (_ & _ & Hlisted & _).
  destruct (@title_after_refresh _ W_listed (lit "constructor") initial_state
              (mkResponse true (Resolved (mkListing [report; memo; report_v2])))
              (mkListing [report; memo; report_v2]) eq_refl eq_refl)
    as (_ & _ & _ & _ & Hbuiltin).
  split.
  - apply (Hlisted report_v2). reflexivity.
  - apply Hbuiltin; [reflexivity|left; reflexivity].
Defined.

Lemma upload_success_witness :
  completion_of (uploadFile W_listed upload_accepted two_files) initial_state
  = Normal (mkForm [] [] [[lit "a.pdf"; lit "b.pdf"]])
  /\ fetches (events_of (uploadFile W_listed upload_accepted two_files) initial_state)
     = [ReqDocuments].
Proof.
  destruct (@upload_success _ W_listed upload_accepted two_files initial_state
              (mkResponse true (Resolved (mkUploadResult (Some 2))))
              (mkUploadResult (Some 2))) as (Hc & _ & Hf & _).
  - discriminate.
  - reflexivity.
  - reflexivity.
  - reflexivity.
  - split; [exact Hc|exact Hf].
Defined.

Lemma upload_not_carried_out_witness :
  fetches (events_of (uploadFile W_listed upload_down two_files) initial_state) = []
  /\ uploadFile W_listed upload_down (mkForm [] [] []) initial_state
     = (Normal (mkForm [] [] []),
        add_events [EvAlert (lit "Please select at least one PDF file")] initial_state).
Proof.
  destruct (@upload_not_carried_out _ W_listed upload_down two_files initial_state
              Examples.network_down) as (_ & Hfail).
  destruct (@upload_not_carried_out _ W_listed upload_down (mkForm [] [] []) initial_state
              Examples.network_down) as (Hnone & _).
  destruct Hfail as (_ & _ & Hf & _).
  - discriminate.
  - left. reflexivity.
  - split; [exact Hf|exact (Hnone eq_refl)].
Defined.
